(** * gomonitor: check results with Nagios exit codes and performance data

    A shallow embedding of [gomonitor.go] (package [gomonitor]) and the
    properties of its exit codes, its metric bookkeeping and its output
    line.

    Conventions of the embedding:
    - a Go [int] is a [Z] (no arithmetic in the package can overflow: the
      only computation is [len(cr.PerfOrder) - 1]);
    - a Go [string] is a [string] (a sequence of bytes);
    - a Go [float64] is a primitive binary64 [float];
    - a Go [map[string]V] is an [option (gmap string V)], [None] being the
      [nil] map: reading a [nil] map finds nothing, writing to it panics;
    - a Go [[]string] is a [list string]; indexing out of range panics;
    - a method on [*CheckResult] is a function from the receiver's state to
      an [outcome]: a result with the receiver's new state, or a panic. *)

From Stdlib Require Import ZArith String Ascii List.
From Stdlib Require Import Floats.PrimFloat Floats.FloatOps Floats.SpecFloat.
From Stdlib Require Import Numbers.DecimalString Numbers.DecimalPos Numbers.DecimalZ.
From stdpp Require Import base option list gmap strings.

Local Open Scope string_scope.
Local Open Scope Z_scope.

(** ** Formatting verbs of package [fmt] used by the code *)

Module Fmt.

(** [%d] at an integer operand: decimal digits, a leading [-] when
    negative. *)
Definition verb_d (n : Z) : string := NilZero.string_of_int (Z.to_int n).

(** Division of [num] by [den] rounded to the nearest integer, a tie going
    to the even neighbour: the rounding of [strconv]'s exact decimal
    conversion. *)
Definition round_half_even (num den : Z) : Z :=
  let q := num / den in
  match (2 * (num mod den)) ?= den with
  | Lt => q
  | Eq => if Z.even q then q else q + 1
  | Gt => q + 1
  end.

(** The hundredths in the magnitude [m * 2^e], rounded. *)
Definition hundredths (m : positive) (e : Z) : Z :=
  if 0 <=? e then Z.pos m * 100 * 2 ^ e
  else round_half_even (Z.pos m * 100) (2 ^ (- e)).

Definition digit (d : Z) : string := verb_d (d mod 10).

Definition sign (neg : bool) : string := if neg then "-" else "".

(** [%.2f] at a [float64] operand: the exact binary value, rounded to two
    decimals; the sign is the sign bit's, so a negative zero and a
    negative value that rounds to zero print [-0.00]. *)
Definition verb_2f (x : float) : string :=
  match Prim2SF x with
  | S754_nan => "NaN"
  | S754_infinity neg => (if neg then "-" else "+") ++ "Inf"
  | S754_zero neg => sign neg ++ "0.00"
  | S754_finite neg m e =>
      let h := hundredths m e in
      sign neg ++ verb_d (h / 100) ++ "." ++ digit (h / 10) ++ digit h
  end.

(** What remains of the operands when the template ends. *)
Fixpoint extra_operands (a : list string) : string :=
  match a with
  | [] => ""
  | [x] => "string=" ++ x
  | x :: a' => "string=" ++ x ++ ", " ++ extra_operands a'
  end.

Definition extra (a : list string) : string :=
  match a with
  | [] => ""
  | _ => "%!(EXTRA " ++ extra_operands a ++ ")"
  end.

(** [fmt.Sprintf(format, a...)] at string operands, for the templates made
    of literal bytes and of the directives [%s], [%v] and [%%] (no flags,
    width, precision or operand index).  A directive with no operand left
    prints [%!s(MISSING)], a lone [%] at the end prints [%!(NOVERB)], and
    operands left over are listed after the text.  [None]: the template
    has a directive outside this fragment. *)
Fixpoint doPrintf (format : string) (a : list string) : option string :=
  match format with
  | EmptyString => Some (extra a)
  | String "%" rest =>
      match rest with
      | EmptyString => Some ("%!(NOVERB)" ++ extra a)
      | String verb rest' =>
          if Ascii.eqb verb "%" then
            append "%" <$> doPrintf rest' a
          else if Ascii.eqb verb "s" || Ascii.eqb verb "v" then
            match a with
            | [] => append ("%!" ++ String verb "(MISSING)") <$> doPrintf rest' []
            | arg :: a' => append arg <$> doPrintf rest' a'
            end
          else None
      end
  | String c rest => String c <$> doPrintf rest a
  end.

End Fmt.

(** ** Exit codes *)

Module ExitCode.

(** [type ExitCode int] *)
Definition t : Type := Z.

Definition OK : t := 0.
Definition Warning : t := 1.
Definition Critical : t := 2.
Definition Unknown : t := 3.

Definition String (ec : t) : string :=
  match ec with
  | 0 => "OK"
  | 1 => "Warning"
  | 2 => "Critical"
  | 3 => "Unknown"
  | _ => "ExitCode(" ++ Fmt.verb_d ec ++ ")"
  end.

Definition Int (ec : t) : Z :=
  match ec with
  | 0 => 0
  | 1 => 1
  | 2 => 2
  | 3 => 3
  | _ => ec
  end.

End ExitCode.

(** ** Data *)

Record PerformanceMetric : Type := {
  Value : float;
  Warn : float;
  Crit : float;
  Min : float;
  Max : float;
  UnitOM : string
}.

(** The zero value, which reading an absent key of a map yields. *)
Definition zero_metric : PerformanceMetric :=
  {| Value := 0; Warn := 0; Crit := 0; Min := 0; Max := 0; UnitOM := "" |}.

Record CheckResult : Type := {
  ExitCode : ExitCode.t;
  Message : string;
  PerfOrder : list string;
  PerformanceData : option (gmap string PerformanceMetric);
  Format : string;
  perfIndexMap : option (gmap string Z)
}.

Definition set_ExitCode (ec : ExitCode.t) (cr : CheckResult) : CheckResult :=
  {| ExitCode := ec; Message := Message cr; PerfOrder := PerfOrder cr;
     PerformanceData := PerformanceData cr; Format := Format cr;
     perfIndexMap := perfIndexMap cr |}.

Definition set_Message (msg : string) (cr : CheckResult) : CheckResult :=
  {| ExitCode := ExitCode cr; Message := msg; PerfOrder := PerfOrder cr;
     PerformanceData := PerformanceData cr; Format := Format cr;
     perfIndexMap := perfIndexMap cr |}.

Definition set_PerfOrder (order : list string) (cr : CheckResult) : CheckResult :=
  {| ExitCode := ExitCode cr; Message := Message cr; PerfOrder := order;
     PerformanceData := PerformanceData cr; Format := Format cr;
     perfIndexMap := perfIndexMap cr |}.

Definition set_PerformanceData (pd : option (gmap string PerformanceMetric))
    (cr : CheckResult) : CheckResult :=
  {| ExitCode := ExitCode cr; Message := Message cr; PerfOrder := PerfOrder cr;
     PerformanceData := pd; Format := Format cr;
     perfIndexMap := perfIndexMap cr |}.

Definition set_perfIndexMap (idx : option (gmap string Z)) (cr : CheckResult) : CheckResult :=
  {| ExitCode := ExitCode cr; Message := Message cr; PerfOrder := PerfOrder cr;
     PerformanceData := PerformanceData cr; Format := Format cr;
     perfIndexMap := idx |}.

(** ** Methods on a [*CheckResult] *)

Inductive outcome (A : Type) : Type :=
| Ok (a : A) (cr : CheckResult)
| Panic (msg : string).
Arguments Ok {A} a cr.
Arguments Panic {A} msg.

Definition method (A : Type) : Type := CheckResult -> outcome A.

Definition ret {A} (a : A) : method A := fun cr => Ok a cr.

Definition bind {A B} (m : method A) (k : A -> method B) : method B :=
  fun cr => match m cr with
            | Ok a cr' => k a cr'
            | Panic msg => Panic msg
            end.

Definition panic {A} (msg : string) : method A := fun _ => Panic msg.

(** Read a field of the receiver. *)
Definition load {A} (field : CheckResult -> A) : method A := fun cr => Ok (field cr) cr.

(** Assign a field of the receiver. *)
Definition store (setter : CheckResult -> CheckResult) : method unit :=
  fun cr => Ok tt (setter cr).

Declare Scope method_scope.
Delimit Scope method_scope with method.
Bind Scope method_scope with method.
Notation "'let*' x ':=' m 'in' k" := (bind m (fun x => k))
  (at level 10, x name, m at level 100, k at level 200) : method_scope.
Notation "m ';;' k" := (bind m (fun _ => k))
  (at level 100, k at level 200, right associativity) : method_scope.
Local Open Scope method_scope.

(** *** Go maps and slices *)

Module GoMap.
Section Ops.
Context {V : Type}.

(** [v, exists := m[k]] *)
Definition get (m : option (gmap string V)) (k : string) : option V :=
  match m with
  | None => None
  | Some g => g !! k
  end.

(** [len(m)] *)
Definition len (m : option (gmap string V)) : Z :=
  match m with
  | None => 0
  | Some g => Z.of_nat (size g)
  end.

(** [delete(m, k)] *)
Definition remove (m : option (gmap string V)) (k : string) : option (gmap string V) :=
  delete k <$> m.

(** [m[k] = v] *)
Definition assign (m : option (gmap string V)) (k : string) (v : V) :
    method (option (gmap string V)) :=
  match m with
  | None => panic "assignment to entry in nil map"
  | Some g => ret (Some (<[k:=v]> g))
  end.
End Ops.
End GoMap.

Module GoSlice.
Section Ops.
Context {A : Type}.

(** [len(s)] *)
Definition len (s : list A) : Z := Z.of_nat (length s).

(** [s[i]] *)
Definition index (s : list A) (i : Z) : method A :=
  if i <? 0 then panic "index out of range"
  else match s !! Z.to_nat i with
       | Some x => ret x
       | None => panic "index out of range"
       end.

(** [s[i] = x] *)
Definition assign (s : list A) (i : Z) (x : A) : method (list A) :=
  if (0 <=? i) && (i <? len s) then ret (<[Z.to_nat i:=x]> s)
  else panic "index out of range".

(** [s[:j]] *)
Definition prefix (s : list A) (j : Z) : method (list A) :=
  if (0 <=? j) && (j <=? len s) then ret (take (Z.to_nat j) s)
  else panic "slice bounds out of range".
End Ops.
End GoSlice.

(** *** The mutators *)

Definition SetResult (ec : ExitCode.t) (msg : string) : method unit :=
  store (set_ExitCode ec) ;;
  store (set_Message msg).

Definition AddPerformanceData (metricName : string) (metric : PerformanceMetric) : method unit :=
  let* pd := load PerformanceData in
  (match pd with
   | None =>
       store (set_PerformanceData (Some ∅)) ;;
       store (set_PerfOrder []) ;;
       store (set_perfIndexMap (Some ∅))
   | Some _ => ret tt
   end) ;;
  let* pd := load PerformanceData in
  (match GoMap.get pd metricName with
   | None =>
       let* order := load PerfOrder in
       store (set_PerfOrder (order ++ [metricName])) ;;
       let* idx := load perfIndexMap in
       let* order := load PerfOrder in
       let* idx' := GoMap.assign idx metricName (GoSlice.len order - 1) in
       store (set_perfIndexMap idx')
   | Some _ => ret tt
   end) ;;
  let* pd := load PerformanceData in
  let* pd' := GoMap.assign pd metricName metric in
  store (set_PerformanceData pd').

Definition UpdatePerformanceData (metricName : string) (metric : PerformanceMetric) : method unit :=
  let* pd := load PerformanceData in
  let* pd' := GoMap.assign pd metricName metric in
  store (set_PerformanceData pd').

Definition DeletePerformanceData (metricName : string) : method unit :=
  let* pd := load PerformanceData in
  match GoMap.get pd metricName with
  | None => ret tt
  | Some _ =>
      store (set_PerformanceData (GoMap.remove pd metricName)) ;;
      let* idx := load perfIndexMap in
      match GoMap.get idx metricName with
      | None => ret tt
      | Some index =>
          store (set_perfIndexMap (GoMap.remove idx metricName)) ;;
          let* order := load PerfOrder in
          let* lastElement := GoSlice.index order (GoSlice.len order - 1) in
          let* order' := GoSlice.assign order index lastElement in
          store (set_PerfOrder order') ;;
          let* idx := load perfIndexMap in
          let* idx' := GoMap.assign idx lastElement index in
          store (set_perfIndexMap idx') ;;
          let* order := load PerfOrder in
          let* order' := GoSlice.prefix order (GoSlice.len order - 1) in
          store (set_PerfOrder order')
      end
  end.

Definition NewCheckResult : CheckResult :=
  {| ExitCode := ExitCode.OK;
     Message := "";
     PerfOrder := [];
     PerformanceData := Some ∅;
     Format := "%s - %s";
     perfIndexMap := Some ∅ |}.

(** ** The output line *)

Section Rendering.

(** [fmt.Sprintf] at two string operands for the templates outside the
    fragment of [Fmt.doPrintf]: some function of the template and the
    operands, which the development leaves open. *)
Variable Sprintf_other : string -> string -> string -> string.

(** [fmt.Sprintf(format, a, b)] *)
Definition Sprintf2 (format a b : string) : string :=
  default (Sprintf_other format a b) (Fmt.doPrintf format [a; b]).

(** [fmt.Sprintf("'%s'=%.2f%s;%.2f;%.2f;%.2f;%.2f ", key, metric.Value,
    metric.UnitOM, metric.Warn, metric.Crit, metric.Min, metric.Max)] *)
Definition metricStr (key : string) (metric : PerformanceMetric) : string :=
  "'" ++ key ++ "'=" ++ Fmt.verb_2f (Value metric) ++ UnitOM metric
      ++ ";" ++ Fmt.verb_2f (Warn metric)
      ++ ";" ++ Fmt.verb_2f (Crit metric)
      ++ ";" ++ Fmt.verb_2f (Min metric)
      ++ ";" ++ Fmt.verb_2f (Max metric) ++ " ".

(** The loop over [cr.PerfOrder]; a key absent from the map reads as the
    zero metric. *)
Definition performanceDataStr (pd : option (gmap string PerformanceMetric))
    (order : list string) : string :=
  fold_left
    (fun acc key => acc ++ metricStr key (default zero_metric (GoMap.get pd key)))
    order "".

Definition FormatResult : method string :=
  let* format := load Format in
  let* ec := load ExitCode in
  let* msg := load Message in
  let output := Sprintf2 format (ExitCode.String ec) msg in
  let* pd := load PerformanceData in
  if 0 <? GoMap.len pd then
    let* order := load PerfOrder in
    ret (output ++ " | " ++ performanceDataStr pd order)
  else ret output.

(** How the process ends: [os.Exit(code)], or a panic that nothing
    recovers. *)
Inductive termination : Type :=
| Exited (code : Z)
| Crashed (msg : string).

(** What the environment sees of the process: the bytes on standard output
    and its end. *)
Record process : Type := {
  stdout : string;
  status : termination
}.

Definition newline : string := String "010" EmptyString.

(** [fmt.Println(s)] on a standard output that holds [out] already. *)
Definition Println (s : string) (out : string) : string := out ++ s ++ newline.

Definition SendResult (cr : CheckResult) (out : string) : process :=
  match FormatResult cr with
  | Ok output cr' =>
      {| stdout := Println output out;
         status := Exited (ExitCode.Int (ExitCode cr')) |}
  | Panic msg => {| stdout := out; status := Crashed msg |}
  end.

End Rendering.

(** ** Running a client's calls *)

(** The public mutators, as a client calls them. *)
Inductive call : Type :=
| CallSetResult (ec : ExitCode.t) (msg : string)
| CallAdd (metricName : string) (metric : PerformanceMetric)
| CallUpdate (metricName : string) (metric : PerformanceMetric)
| CallDelete (metricName : string).

Definition perform (c : call) : method unit :=
  match c with
  | CallSetResult ec msg => SetResult ec msg
  | CallAdd metricName metric => AddPerformanceData metricName metric
  | CallUpdate metricName metric => UpdatePerformanceData metricName metric
  | CallDelete metricName => DeletePerformanceData metricName
  end.

Fixpoint perform_all (cs : list call) : method unit :=
  match cs with
  | [] => ret tt
  | c :: cs' => perform c ;; perform_all cs'
  end.

(** The metric of the tests and of the README. *)
#[warnings="-inexact-float"]
Definition response_time_metric : PerformanceMetric :=
  {| Value := 1.23; Warn := 1.00; Crit := 2.00; Min := 0.00; Max := 10.00;
     UnitOM := "ms" |}.

(** The state a sequence of calls leaves, when none of them panics. *)
Definition state_after (cs : list call) (cr : CheckResult) : option CheckResult :=
  match perform_all cs cr with
  | Ok _ cr' => Some cr'
  | Panic _ => None
  end.

(** The order sequence and the map name the same metrics, each once. *)
Definition in_sync (cr : CheckResult) : Prop :=
  NoDup (PerfOrder cr) /\
  forall k : string, k ∈ PerfOrder cr <-> is_Some (GoMap.get (PerformanceData cr) k).

(** The index map is allocated whenever the metric map is, as
    [NewCheckResult] and the lazy initialisation of [AddPerformanceData]
    leave them. *)
Definition allocated (cr : CheckResult) : Prop :=
  is_Some (PerformanceData cr) -> is_Some (perfIndexMap cr).

(** The bookkeeping the code relies on: both maps allocated, the order
    free of duplicates and naming the keys of the metric map, and the index
    map giving every name of the order its position.  (The index map may
    keep the position of a name that is gone.) *)
Definition consistent (cr : CheckResult) : Prop :=
  exists (pd : gmap string PerformanceMetric) (idx : gmap string Z),
    PerformanceData cr = Some pd /\ perfIndexMap cr = Some idx /\
    NoDup (PerfOrder cr) /\
    (forall k : string, k ∈ PerfOrder cr <-> is_Some (pd !! k)) /\
    (forall (i : nat) (k : string), PerfOrder cr !! i = Some k -> idx !! k = Some (Z.of_nat i)).

(** What [DeletePerformanceData] does to the order: the last name is
    written over position [i], and the order loses its last position. *)
Definition swap_remove (i : nat) (order : list string) : list string :=
  match last order with
  | Some lastElement => take (pred (length order)) (<[i:=lastElement]> order)
  | None => order
  end.

(** A call that is not an update of a name the map does not have. *)
Definition updates_present (c : call) (cr : CheckResult) : Prop :=
  match c with
  | CallUpdate metricName _ => is_Some (GoMap.get (PerformanceData cr) metricName)
  | _ => True
  end.

(** A sequence of calls in which every update names a metric that is in the
    map when the call is made. *)
Fixpoint disciplined (cs : list call) (cr : CheckResult) : Prop :=
  match cs with
  | [] => True
  | c :: cs' =>
      updates_present c cr /\
      forall cr', perform c cr = Ok tt cr' -> disciplined cs' cr'
  end.

(** The removal the specification words: the name is dropped and the other
    names keep their order.  It is the yardstick for [swap_remove], which
    is what the code does. *)
Definition stable_remove (metricName : string) (order : list string) : list string :=
  filter (fun k => k <> metricName) order.

(** The zero value [CheckResult{}]. *)
Definition zero_CheckResult : CheckResult :=
  {| ExitCode := 0; Message := ""; PerfOrder := []; PerformanceData := None;
     Format := ""; perfIndexMap := None |}.

(** ** The substring search of the tests *)

Module GoString.

(** [len(s)] *)
Definition len (s : string) : Z := Z.of_nat (String.length s).

(** [s[i:j]], for [0 <= i <= j <= len(s)] *)
Definition slice (s : string) (i j : Z) : string :=
  substring (Z.to_nat i) (Z.to_nat (j - i)) s.

End GoString.

(** The loop of [findSubstringIndex] from [i] on; [fuel] bounds the
    iterations that are left. *)
Fixpoint findSubstringIndex_from (s substr : string) (i : Z) (fuel : nat) : Z :=
  match fuel with
  | O => -1
  | S fuel' =>
      if i <=? GoString.len s - GoString.len substr then
        if String.eqb (GoString.slice s i (i + GoString.len substr)) substr then i
        else findSubstringIndex_from s substr (i + 1) fuel'
      else -1
  end.

(** The loop runs for [i] from [0] to [len(s) - len(substr)], which is at
    most [len(s) + 1] times. *)
Definition findSubstringIndex (s substr : string) : Z :=
  findSubstringIndex_from s substr 0 (S (String.length s)).

Definition containsString (s substr : string) : bool :=
  (0 <? GoString.len s) && (0 <? GoString.len substr)
  && (0 <=? findSubstringIndex s substr).

(** [substr] is in [s] at byte offset [i]. *)
Definition occurs_at (s substr : string) (i : nat) : Prop :=
  (i + String.length substr <= String.length s)%nat /\
  substring i (String.length substr) s = substr.

(** A call other than [UpdatePerformanceData]. *)
Definition not_update (c : call) : Prop :=
  match c with
  | CallUpdate _ _ => False
  | _ => True
  end.

(** * Properties *)

Ltac fields :=
  cbn [ExitCode Message PerfOrder PerformanceData Format perfIndexMap
       set_ExitCode set_Message set_PerfOrder set_PerformanceData set_perfIndexMap].

Ltac run_method :=
  cbv [SetResult AddPerformanceData UpdatePerformanceData DeletePerformanceData
       FormatResult bind ret load store panic GoMap.assign]; cbn.

(** ** Exit codes *)

(** C3: the four known exit codes have the names OK, Warning, Critical and
    Unknown and the integers 0, 1, 2 and 3; every other code [n] is named
    ExitCode(n) and has the integer [n]. *)
Theorem ExitCode_String_Int :
  (ExitCode.String ExitCode.OK = "OK" /\ ExitCode.Int ExitCode.OK = 0) /\
  (ExitCode.String ExitCode.Warning = "Warning" /\ ExitCode.Int ExitCode.Warning = 1) /\
  (ExitCode.String ExitCode.Critical = "Critical" /\ ExitCode.Int ExitCode.Critical = 2) /\
  (ExitCode.String ExitCode.Unknown = "Unknown" /\ ExitCode.Int ExitCode.Unknown = 3) /\
  forall n : ExitCode.t,
    n <> ExitCode.OK -> n <> ExitCode.Warning ->
    n <> ExitCode.Critical -> n <> ExitCode.Unknown ->
    ExitCode.String n = "ExitCode(" ++ Fmt.verb_d n ++ ")" /\ ExitCode.Int n = n.
Proof.
  repeat split; try reflexivity;
    unfold ExitCode.OK, ExitCode.Warning, ExitCode.Critical, ExitCode.Unknown in *;
    destruct n as [|[[p|p|]|[p|p|]|]|p]; try reflexivity; congruence.
Qed.

Lemma ExitCode_String_Int_witness :
  ExitCode.String 100 = "ExitCode(100)" /\ ExitCode.Int 100 = 100.
Proof.
  destruct ExitCode_String_Int as (_ & _ & _ & _ & other).
  apply (other 100); discriminate.
Defined.

(** ** The mutators *)

(** C10: [SetResult] assigns the exit code and the message and leaves the
    metric map, the order sequence, the index map and the template as they
    were. *)
Theorem SetResult_frame (cr : CheckResult) (ec : ExitCode.t) (msg : string) :
  exists cr',
    SetResult ec msg cr = Ok tt cr' /\
    ExitCode cr' = ec /\ Message cr' = msg /\
    PerformanceData cr' = PerformanceData cr /\
    PerfOrder cr' = PerfOrder cr /\
    perfIndexMap cr' = perfIndexMap cr /\
    Format cr' = Format cr.
Proof. eexists. run_method. repeat split. Qed.

Lemma UpdatePerformanceData_Some (cr : CheckResult) (metricName : string)
    (metric : PerformanceMetric) (pd : gmap string PerformanceMetric) :
  PerformanceData cr = Some pd ->
  UpdatePerformanceData metricName metric cr
  = Ok tt (set_PerformanceData (Some (<[metricName:=metric]> pd)) cr).
Proof. intros Hpd. run_method. by rewrite Hpd. Qed.

(** On the nil map the assignment panics. *)
Lemma UpdatePerformanceData_nil (cr : CheckResult) (metricName : string)
    (metric : PerformanceMetric) :
  PerformanceData cr = None ->
  UpdatePerformanceData metricName metric cr = Panic "assignment to entry in nil map".
Proof. intros Hpd. run_method. by rewrite Hpd. Qed.

(** C7: on a report whose metric map is allocated, [UpdatePerformanceData]
    returns without panic and stores the metric under the name, whether the
    name was there or not; a name that was absent is one more key of the
    map.  Nothing else of the report changes. *)
Theorem UpdatePerformanceData_upsert (cr : CheckResult) (metricName : string)
    (metric : PerformanceMetric) (pd : gmap string PerformanceMetric) :
  PerformanceData cr = Some pd ->
  exists cr',
    UpdatePerformanceData metricName metric cr = Ok tt cr' /\
    PerformanceData cr' = Some (<[metricName:=metric]> pd) /\
    GoMap.get (PerformanceData cr') metricName = Some metric /\
    (forall k, k <> metricName ->
       GoMap.get (PerformanceData cr') k = GoMap.get (PerformanceData cr) k) /\
    (pd !! metricName = None ->
       GoMap.len (PerformanceData cr') = GoMap.len (PerformanceData cr) + 1) /\
    PerfOrder cr' = PerfOrder cr /\ perfIndexMap cr' = perfIndexMap cr /\
    ExitCode cr' = ExitCode cr /\ Message cr' = Message cr /\
    Format cr' = Format cr.
Proof.
  intros Hpd. eexists. split; [by apply UpdatePerformanceData_Some|].
  fields. repeat split.
  - apply lookup_insert_eq.
  - intros k Hk. rewrite Hpd. by apply lookup_insert_ne.
  - intros Hnew. rewrite Hpd. unfold GoMap.len.
    rewrite map_size_insert_None by done. lia.
Qed.

Lemma UpdatePerformanceData_upsert_witness :
  exists cr',
    UpdatePerformanceData "load" zero_metric NewCheckResult = Ok tt cr' /\
    GoMap.get (PerformanceData cr') "load" = Some zero_metric /\
    GoMap.len (PerformanceData cr') = 1.
Proof.
  destruct (UpdatePerformanceData_upsert NewCheckResult "load" zero_metric ∅ eq_refl)
    as (cr' & Hrun & _ & Hget & _ & Hlen & _).
  exists cr'. repeat split; [exact Hrun | exact Hget | exact (Hlen eq_refl)].
Defined.

(** *** What [AddPerformanceData] does, case by case *)

Lemma AddPerformanceData_present (cr : CheckResult) (metricName : string)
    (metric old : PerformanceMetric) (pd : gmap string PerformanceMetric) :
  PerformanceData cr = Some pd -> pd !! metricName = Some old ->
  AddPerformanceData metricName metric cr
  = Ok tt (set_PerformanceData (Some (<[metricName:=metric]> pd)) cr).
Proof.
  intros Hpd Hold. run_method. rewrite Hpd. cbn. rewrite Hpd. cbn.
  rewrite Hold. cbn. by rewrite Hpd.
Qed.

Lemma AddPerformanceData_absent (cr : CheckResult) (metricName : string)
    (metric : PerformanceMetric) (pd : gmap string PerformanceMetric)
    (idx : gmap string Z) :
  PerformanceData cr = Some pd -> pd !! metricName = None ->
  perfIndexMap cr = Some idx ->
  AddPerformanceData metricName metric cr
  = Ok tt
      (set_PerformanceData (Some (<[metricName:=metric]> pd))
         (set_perfIndexMap
            (Some (<[metricName:=GoSlice.len (PerfOrder cr ++ [metricName]) - 1]> idx))
            (set_PerfOrder (PerfOrder cr ++ [metricName]) cr))).
Proof.
  intros Hpd Hnew Hidx. run_method. rewrite Hpd. cbn. rewrite Hpd. cbn.
  rewrite Hnew. cbn. rewrite Hidx. cbn. by rewrite Hpd.
Qed.

Lemma AddPerformanceData_nil (cr : CheckResult) (metricName : string)
    (metric : PerformanceMetric) :
  PerformanceData cr = None ->
  AddPerformanceData metricName metric cr
  = Ok tt
      (set_PerformanceData (Some {[metricName:=metric]})
         (set_perfIndexMap (Some {[metricName:=0]})
            (set_PerfOrder [metricName] cr))).
Proof.
  intros Hpd. run_method. rewrite Hpd. cbn. reflexivity.
Qed.



(** After an update that put a name in the map and not in the order, the
    two calls return and the name has no position in the order. *)
Lemma AddPerformanceData_twice_unplaced :
  PerfOrder <$> state_after [CallUpdate "load" zero_metric;
                             CallAdd "load" zero_metric;
                             CallAdd "load" response_time_metric] NewCheckResult
  = Some [].
Proof. reflexivity. Qed.

(** ** The output line *)

Lemma append_empty_r (s : string) : s ++ "" = s.
Proof.
  induction s as [|c s IH]; [reflexivity|].
  change (String c (s ++ "") = String c s). by rewrite IH.
Qed.

(** The default template puts the status name, [" - "] and the message
    side by side. *)
Lemma doPrintf_default (a b : string) :
  Fmt.doPrintf "%s - %s" [a; b] = Some (a ++ " - " ++ b).
Proof. cbn. by rewrite append_empty_r. Qed.

(** The template that joins the message line and the metrics does the same
    around [" | "]: [FormatResult] writes its result as that
    concatenation. *)
Lemma doPrintf_pipe (a b : string) :
  Fmt.doPrintf "%s | %s" [a; b] = Some (a ++ " | " ++ b).
Proof. cbn. by rewrite append_empty_r. Qed.

Section RenderingFacts.

Variable Sprintf_other : string -> string -> string -> string.

(** [FormatResult] always returns, and the receiver is as before. *)
Lemma FormatResult_returns (cr : CheckResult) :
  exists output, FormatResult Sprintf_other cr = Ok output cr.
Proof.
  run_method. destruct (0 <? GoMap.len (PerformanceData cr)); by eexists.
Qed.

(** C5: with the default template and no metric in the map, the output is
    the status name, [" - "] and the message, and nothing after them. *)
Theorem FormatResult_no_metrics (cr : CheckResult) :
  Format cr = "%s - %s" ->
  GoMap.len (PerformanceData cr) = 0 ->
  FormatResult Sprintf_other cr
  = Ok (ExitCode.String (ExitCode cr) ++ " - " ++ Message cr) cr.
Proof.
  intros Hfmt Hlen. run_method. rewrite Hlen. cbn.
  unfold Sprintf2. rewrite Hfmt, doPrintf_default. reflexivity.
Qed.

(** C4: the report of the README: default template, status OK, message
    "Everything is fine" and the one metric response_time. *)
Theorem FormatResult_response_time (cr : CheckResult) :
  Format cr = "%s - %s" ->
  ExitCode cr = ExitCode.OK ->
  Message cr = "Everything is fine" ->
  PerformanceData cr = Some {["response_time" := response_time_metric]} ->
  PerfOrder cr = ["response_time"] ->
  FormatResult Sprintf_other cr
  = Ok "OK - Everything is fine | 'response_time'=1.23ms;1.00;2.00;0.00;10.00 " cr.
Proof.
  intros Hfmt Hec Hmsg Hpd Horder. run_method.
  rewrite Hfmt, Hec, Hmsg, Hpd.
  unfold GoMap.len. rewrite map_size_singleton.
  change (0 <? Z.of_nat 1) with true. cbv beta iota. rewrite Horder.
  unfold performanceDataStr, GoMap.get. cbn. rewrite lookup_singleton_eq.
  reflexivity.
Qed.

(** C8: [FormatResult] returns with the receiver unchanged, and a second
    call right after the first returns the same string. *)
Theorem FormatResult_pure (cr : CheckResult) :
  exists output,
    FormatResult Sprintf_other cr = Ok output cr /\
    (let* first := FormatResult Sprintf_other in
     let* second := FormatResult Sprintf_other in
     ret (first, second)) cr = Ok (output, output) cr.
Proof.
  destruct (FormatResult_returns cr) as [output Hrun].
  exists output. split; [exact Hrun|].
  unfold bind. rewrite Hrun, Hrun. reflexivity.
Qed.

(** C9: [SendResult] prints the string of [FormatResult] and a newline on
    standard output, then exits with the integer of the exit code. *)
Theorem SendResult_prints_and_exits (cr : CheckResult) (out : string) :
  exists output,
    FormatResult Sprintf_other cr = Ok output cr /\
    SendResult Sprintf_other cr out
    = {| stdout := out ++ output ++ newline;
         status := Exited (ExitCode.Int (ExitCode cr)) |}.
Proof.
  destruct (FormatResult_returns cr) as [output Hrun].
  exists output. split; [exact Hrun|].
  unfold SendResult. rewrite Hrun. reflexivity.
Qed.

End RenderingFacts.

Lemma FormatResult_no_metrics_witness :
  FormatResult (fun _ _ _ => "")
    (set_Message "Disk is full" (set_ExitCode ExitCode.Critical NewCheckResult))
  = Ok "Critical - Disk is full"
      (set_Message "Disk is full" (set_ExitCode ExitCode.Critical NewCheckResult)).
Proof.
  apply (FormatResult_no_metrics (fun _ _ _ => "")
           (set_Message "Disk is full" (set_ExitCode ExitCode.Critical NewCheckResult)));
    reflexivity.
Defined.

Lemma FormatResult_response_time_witness :
  exists cr,
    state_after [CallSetResult ExitCode.OK "Everything is fine";
                 CallAdd "response_time" response_time_metric] NewCheckResult
    = Some cr /\
    FormatResult (fun _ _ _ => "") cr
    = Ok "OK - Everything is fine | 'response_time'=1.23ms;1.00;2.00;0.00;10.00 " cr.
Proof.
  eexists. split; [reflexivity|].
  apply (FormatResult_response_time (fun _ _ _ => "")); reflexivity.
Defined.

(** ** The bookkeeping of the metrics *)

Lemma GoSlice_index_Some (l : list string) (i : nat) (x : string) :
  l !! i = Some x -> GoSlice.index l (Z.of_nat i) = ret x.
Proof.
  intros Hx. unfold GoSlice.index.
  destruct (Z.ltb_spec (Z.of_nat i) 0) as [|_]; [lia|].
  by rewrite Nat2Z.id, Hx.
Qed.

Lemma GoSlice_assign_lt (l : list string) (i : nat) (x : string) :
  (i < length l)%nat -> GoSlice.assign l (Z.of_nat i) x = ret (<[i:=x]> l).
Proof.
  intros Hi. unfold GoSlice.assign, GoSlice.len.
  destruct (Z.leb_spec 0 (Z.of_nat i)); [|lia].
  destruct (Z.ltb_spec (Z.of_nat i) (Z.of_nat (length l))); [|lia].
  by rewrite Nat2Z.id.
Qed.

Lemma GoSlice_prefix_le (l : list string) (j : nat) :
  (j <= length l)%nat -> GoSlice.prefix l (Z.of_nat j) = ret (take j l).
Proof.
  intros Hj. unfold GoSlice.prefix, GoSlice.len.
  destruct (Z.leb_spec 0 (Z.of_nat j)); [|lia].
  destruct (Z.leb_spec (Z.of_nat j) (Z.of_nat (length l))); [|lia].
  by rewrite Nat2Z.id.
Qed.

Lemma DeletePerformanceData_absent (cr : CheckResult) (metricName : string) :
  GoMap.get (PerformanceData cr) metricName = None ->
  DeletePerformanceData metricName cr = Ok tt cr.
Proof. intros Hget. run_method. by rewrite Hget. Qed.

(** A name of the map with an index is removed by writing the last name of
    the order over its position. *)
Lemma DeletePerformanceData_indexed (cr : CheckResult) (metricName : string)
    (pd : gmap string PerformanceMetric) (idx : gmap string Z) (i : nat)
    (lastElement : string) :
  PerformanceData cr = Some pd -> perfIndexMap cr = Some idx ->
  is_Some (pd !! metricName) ->
  idx !! metricName = Some (Z.of_nat i) ->
  (i < length (PerfOrder cr))%nat ->
  last (PerfOrder cr) = Some lastElement ->
  DeletePerformanceData metricName cr
  = Ok tt
      (set_PerfOrder (swap_remove i (PerfOrder cr))
         (set_perfIndexMap (Some (<[lastElement:=Z.of_nat i]> (delete metricName idx)))
            (set_PerformanceData (Some (delete metricName pd)) cr))).
Proof.
  intros Hpd Hidx [old Hold] Hi Hlt Hlast.
  unfold swap_remove. rewrite Hlast.
  rewrite last_lookup in Hlast.
  assert (Hlen : GoSlice.len (PerfOrder cr) - 1 = Z.of_nat (pred (length (PerfOrder cr)))).
  { unfold GoSlice.len. lia. }
  unfold DeletePerformanceData, bind, load, store.
  rewrite Hpd. cbn. rewrite Hold, Hidx. cbn. rewrite Hi. fields.
  rewrite Hlen, (GoSlice_index_Some _ _ _ Hlast).
  unfold ret at 1.
  rewrite (GoSlice_assign_lt _ _ _ Hlt). unfold ret at 1. cbn. fields.
  assert (Hlen' : GoSlice.len (<[i:=lastElement]> (PerfOrder cr)) - 1
                  = Z.of_nat (pred (length (PerfOrder cr)))).
  { unfold GoSlice.len. rewrite length_insert. lia. }
  rewrite Hlen', GoSlice_prefix_le by (rewrite length_insert; lia).
  reflexivity.
Qed.

Lemma swap_remove_lookup (order : list string) (i j : nat) (lastElement : string) :
  last order = Some lastElement -> (i < length order)%nat ->
  swap_remove i order !! j
  = if decide (j < pred (length order))%nat
    then if decide (j = i) then Some lastElement else order !! j
    else None.
Proof.
  intros Hlast Hi. unfold swap_remove. rewrite Hlast, lookup_take.
  case_decide; [|reflexivity].
  case_decide as Hji.
  - subst j. by apply list_lookup_insert_eq.
  - apply list_lookup_insert_ne. congruence.
Qed.

Lemma swap_remove_length (order : list string) (i : nat) :
  length (swap_remove i order) = pred (length order).
Proof.
  unfold swap_remove. destruct (last order) as [x|] eqn:Hlast.
  - rewrite length_take, length_insert. lia.
  - rewrite last_lookup in Hlast. apply lookup_ge_None_1 in Hlast. lia.
Qed.

(** The order after a removal, for an order free of duplicates: the names
    other than the removed one. *)
Lemma swap_remove_elem_of (order : list string) (i : nat) (metricName k : string) :
  NoDup order -> order !! i = Some metricName ->
  k ∈ swap_remove i order <-> k ∈ order /\ k <> metricName.
Proof.
  intros Hnodup Hname.
  pose proof (lookup_lt_Some _ _ _ Hname) as Hi.
  destruct (last order) as [x|] eqn:Hlast;
    [|rewrite last_lookup in Hlast; apply lookup_ge_None_1 in Hlast; lia].
  pose proof Hlast as Hx. rewrite last_lookup in Hx.
  rewrite NoDup_alt in Hnodup.
  rewrite !list_elem_of_lookup. split.
  - intros [j Hj]. rewrite (swap_remove_lookup _ _ _ _ Hlast Hi) in Hj.
    case_decide as Hjn; [|done]. case_decide as Hji.
    + injection Hj as <-. split; [by eexists|].
      intros ->. pose proof (Hnodup _ _ _ Hx Hname). lia.
    + split; [by eexists|].
      intros ->. by pose proof (Hnodup _ _ _ Hj Hname).
  - intros [[j Hj] Hne].
    assert (j <> i) as Hji by (intros ->; congruence).
    pose proof (lookup_lt_Some _ _ _ Hj) as Hjlt.
    destruct (decide (j < pred (length order))%nat) as [Hjn|Hjn].
    + exists j. rewrite (swap_remove_lookup _ _ _ _ Hlast Hi).
      case_decide; [|lia]. case_decide; [lia|done].
    + assert (j = pred (length order)) as -> by lia.
      exists i. rewrite (swap_remove_lookup _ _ _ _ Hlast Hi).
      case_decide; [|lia]. case_decide; [congruence|done].
Qed.

Lemma swap_remove_NoDup (order : list string) (i : nat) :
  NoDup order -> (i < length order)%nat -> NoDup (swap_remove i order).
Proof.
  intros Hnodup Hi.
  destruct (last order) as [x|] eqn:Hlast;
    [|rewrite last_lookup in Hlast; apply lookup_ge_None_1 in Hlast; lia].
  pose proof Hlast as Hx. rewrite last_lookup in Hx.
  rewrite NoDup_alt in Hnodup. apply NoDup_alt.
  intros j1 j2 k. rewrite !(swap_remove_lookup _ _ _ _ Hlast Hi).
  repeat case_decide; try done; intros Hk1 Hk2.
  - congruence.
  - injection Hk1 as <-. pose proof (Hnodup _ _ _ Hx Hk2). lia.
  - injection Hk2 as <-. pose proof (Hnodup _ _ _ Hx Hk1). lia.
  - by eapply Hnodup.
Qed.

Lemma consistent_in_sync (cr : CheckResult) : consistent cr -> in_sync cr.
Proof.
  intros (pd & idx & Hpd & _ & Hnodup & Hkeys & _).
  split; [exact Hnodup|]. intros k. rewrite Hpd. apply Hkeys.
Qed.

Lemma consistent_allocated (cr : CheckResult) : consistent cr -> allocated cr.
Proof. intros (pd & idx & _ & Hidx & _) _. by rewrite Hidx. Qed.

Lemma NewCheckResult_consistent : consistent NewCheckResult.
Proof.
  exists ∅, ∅. repeat split; cbn.
  - constructor.
  - intros Hk. by apply elem_of_nil in Hk.
  - rewrite lookup_empty. by intros [? ?].
  - intros i k Hk. by rewrite lookup_nil in Hk.
Qed.

Lemma SetResult_consistent (cr : CheckResult) (ec : ExitCode.t) (msg : string) :
  consistent cr ->
  exists cr', SetResult ec msg cr = Ok tt cr' /\ consistent cr'.
Proof. intros Hcr. eexists. split; [reflexivity|]. exact Hcr. Qed.

Lemma AddPerformanceData_consistent (cr : CheckResult) (metricName : string)
    (metric : PerformanceMetric) :
  consistent cr ->
  exists cr', AddPerformanceData metricName metric cr = Ok tt cr' /\ consistent cr'.
Proof.
  intros (pd & idx & Hpd & Hidx & Hnodup & Hkeys & Hpos).
  destruct (pd !! metricName) as [old|] eqn:Hold.
  - eexists. split; [by eapply AddPerformanceData_present|].
    exists (<[metricName:=metric]> pd), idx. fields.
    repeat split; try done.
    + intros Hk. rewrite lookup_insert_is_Some. apply Hkeys in Hk.
      destruct (decide (metricName = k)); auto.
    + rewrite lookup_insert_is_Some. intros [<-|[_ Hk]]; apply Hkeys; [by eexists|done].
  - assert (metricName ∉ PerfOrder cr) as Hfresh.
    { intros Hin. apply Hkeys in Hin. rewrite Hold in Hin. by destruct Hin. }
    eexists. split; [by eapply AddPerformanceData_absent|].
    eexists _, _. fields. split; [reflexivity|]. split; [reflexivity|].
    split; [|split].
    + apply NoDup_app. repeat split; [done| |apply NoDup_singleton].
      intros k Hk ->%list_elem_of_singleton. done.
    + intros k. rewrite elem_of_app, list_elem_of_singleton, lookup_insert_is_Some, Hkeys.
      destruct (decide (metricName = k)); intuition congruence.
    + intros i k Hk. apply lookup_snoc_Some in Hk as [[Hi Hk]|[Hi <-]].
      * rewrite lookup_insert_ne; [by apply Hpos|].
        intros <-. by apply list_elem_of_lookup_2 in Hk.
      * rewrite lookup_insert_eq. f_equal.
        unfold GoSlice.len. rewrite length_app. cbn. lia.
Qed.

Lemma UpdatePerformanceData_consistent (cr : CheckResult) (metricName : string)
    (metric : PerformanceMetric) :
  consistent cr -> is_Some (GoMap.get (PerformanceData cr) metricName) ->
  exists cr', UpdatePerformanceData metricName metric cr = Ok tt cr' /\ consistent cr'.
Proof.
  intros (pd & idx & Hpd & Hidx & Hnodup & Hkeys & Hpos) Hold.
  rewrite Hpd in Hold. cbn in Hold.
  eexists. split; [by apply UpdatePerformanceData_Some|].
  exists (<[metricName:=metric]> pd), idx. fields.
  repeat split; try done.
  - intros Hk. rewrite lookup_insert_is_Some. apply Hkeys in Hk.
    destruct (decide (metricName = k)); auto.
  - rewrite lookup_insert_is_Some. intros [<-|[_ Hk]]; by apply Hkeys.
Qed.

Lemma DeletePerformanceData_consistent (cr : CheckResult) (metricName : string) :
  consistent cr ->
  exists cr', DeletePerformanceData metricName cr = Ok tt cr' /\ consistent cr'.
Proof.
  intros (pd & idx & Hpd & Hidx & Hnodup & Hkeys & Hpos).
  destruct (pd !! metricName) as [old|] eqn:Hold.
  - assert (metricName ∈ PerfOrder cr) as Hin by (apply Hkeys; by eexists).
    apply list_elem_of_lookup_1 in Hin as [i Hi].
    pose proof (lookup_lt_Some _ _ _ Hi) as Hlt.
    destruct (last (PerfOrder cr)) as [x|] eqn:Hlast;
      [|rewrite last_lookup in Hlast; apply lookup_ge_None_1 in Hlast; lia].
    pose proof Hlast as Hx. rewrite last_lookup in Hx.
    eexists. split.
    { eapply DeletePerformanceData_indexed; eauto. }
    eexists _, _. fields. split; [reflexivity|]. split; [reflexivity|].
    split; [by apply swap_remove_NoDup|]. split.
    + intros k. rewrite (swap_remove_elem_of _ _ _ _ Hnodup Hi).
      rewrite lookup_delete_is_Some, Hkeys. intuition congruence.
    + intros j k. rewrite (swap_remove_lookup _ _ _ _ Hlast Hlt).
      case_decide as Hjn; [|done]. case_decide as Hji.
      * intros [= <-]. subst j. apply lookup_insert_eq.
      * intros Hk. rewrite NoDup_alt in Hnodup.
        rewrite lookup_insert_ne, lookup_delete_ne; [by apply Hpos| |].
        -- intros <-. by pose proof (Hnodup _ _ _ Hi Hk).
        -- intros <-. pose proof (Hnodup _ _ _ Hx Hk). lia.
  - exists cr. split.
    + apply DeletePerformanceData_absent. by rewrite Hpd.
    + by exists pd, idx.
Qed.

Lemma perform_consistent (c : call) (cr : CheckResult) :
  consistent cr -> updates_present c cr ->
  exists cr', perform c cr = Ok tt cr' /\ consistent cr'.
Proof.
  intros Hcr Hc. destruct c; cbn.
  - by apply SetResult_consistent.
  - by apply AddPerformanceData_consistent.
  - by apply UpdatePerformanceData_consistent.
  - by apply DeletePerformanceData_consistent.
Qed.

(** The bookkeeping survives every sequence of calls whose updates name
    metrics that are in the map: no call panics and the order and the map
    name the same metrics afterwards. *)
Lemma perform_all_consistent (cs : list call) (cr : CheckResult) :
  consistent cr -> disciplined cs cr ->
  exists cr', perform_all cs cr = Ok tt cr' /\ consistent cr' /\ in_sync cr'.
Proof.
  revert cr. induction cs as [|c cs IH]; intros cr Hcr Hcs.
  - exists cr. auto using consistent_in_sync.
  - destruct Hcs as [Hc Hcs].
    destruct (perform_consistent c cr Hcr Hc) as (cr1 & Hrun1 & Hcr1).
    destruct (IH cr1 Hcr1 (Hcs cr1 Hrun1)) as (cr' & Hrun & Hcr').
    exists cr'. split; [|exact Hcr'].
    cbn. unfold bind. by rewrite Hrun1.
Qed.

(** On a consistent report, deleting the name at position [i] removes it
    from the map and from the order, and the order afterwards is the
    [swap_remove] of the order before. *)
Lemma DeletePerformanceData_order (cr : CheckResult) (metricName : string) (i : nat) :
  consistent cr -> PerfOrder cr !! i = Some metricName ->
  exists cr',
    DeletePerformanceData metricName cr = Ok tt cr' /\
    PerfOrder cr' = swap_remove i (PerfOrder cr) /\
    GoMap.get (PerformanceData cr') metricName = None /\
    metricName ∉ PerfOrder cr'.
Proof.
  intros (pd & idx & Hpd & Hidx & Hnodup & Hkeys & Hpos) Hi.
  pose proof (lookup_lt_Some _ _ _ Hi) as Hlt.
  destruct (last (PerfOrder cr)) as [x|] eqn:Hlast;
    [|rewrite last_lookup in Hlast; apply lookup_ge_None_1 in Hlast; lia].
  eexists. split.
  { eapply DeletePerformanceData_indexed; eauto.
    apply Hkeys. by eapply list_elem_of_lookup_2. }
  fields. split; [reflexivity|]. split; [apply lookup_delete_eq|].
  rewrite (swap_remove_elem_of _ _ _ _ Hnodup Hi). tauto.
Qed.

(** C1: on the report with the metrics a, b and c added in this order,
    deleting a, which is present and not last, leaves the order c, b: the
    last name has moved to the front, where a removal that keeps the order
    of the others leaves b, c. *)
Theorem DeletePerformanceData_reorders :
  PerfOrder <$> state_after [CallAdd "a" zero_metric; CallAdd "b" zero_metric;
                             CallAdd "c" zero_metric] NewCheckResult
  = Some ["a"; "b"; "c"] /\
  PerfOrder <$> state_after [CallAdd "a" zero_metric; CallAdd "b" zero_metric;
                             CallAdd "c" zero_metric; CallDelete "a"] NewCheckResult
  = Some ["c"; "b"] /\
  stable_remove "a" ["a"; "b"; "c"] = ["b"; "c"].
Proof. vm_compute. repeat split. Qed.

(** C2: after [UpdatePerformanceData] with a name the fresh report does not
    have, the name is a key of the map and the order is empty: the two are
    out of step. *)
Theorem UpdatePerformanceData_out_of_sync :
  exists cr,
    state_after [CallUpdate "load" zero_metric] NewCheckResult = Some cr /\
    GoMap.get (PerformanceData cr) "load" = Some zero_metric /\
    PerfOrder cr = [] /\
    ~ in_sync cr.
Proof.
  eexists. split; [reflexivity|]. split; [reflexivity|]. split; [reflexivity|].
  intros [_ Hkeys]. specialize (Hkeys "load"). cbn in Hkeys.
  destruct Hkeys as [_ Hin]. specialize (Hin (ex_intro _ _ eq_refl)).
  by apply elem_of_nil in Hin.
Qed.

(** What follows from an update that left the order behind: the output has
    the separator and no metric, and a later deletion can find a stale
    index and panic. *)
Lemma UpdatePerformanceData_then_FormatResult :
  match (perform_all [CallUpdate "load" zero_metric] ;; FormatResult (fun _ _ _ => ""))
          NewCheckResult with
  | Ok output _ => output = "OK -  | "
  | Panic _ => False
  end.
Proof. vm_compute. reflexivity. Qed.

Lemma UpdatePerformanceData_then_Delete_panics :
  perform_all [CallAdd "load" zero_metric; CallDelete "load";
               CallUpdate "load" zero_metric; CallDelete "load"] NewCheckResult
  = Panic "index out of range".
Proof. reflexivity. Qed.

(** [AddPerformanceData] is safe as the first call on the zero value. *)
Lemma AddPerformanceData_zero_value (metricName : string) (metric : PerformanceMetric) :
  allocated zero_CheckResult /\
  exists cr,
    AddPerformanceData metricName metric zero_CheckResult = Ok tt cr /\ consistent cr.
Proof.
  split; [by intros [? ?]|].
  eexists. split; [by apply AddPerformanceData_nil|].
  exists {[metricName:=metric]}, {[metricName:=0]}. fields.
  repeat split; try done.
  - apply NoDup_singleton.
  - intros ->%list_elem_of_singleton. rewrite lookup_singleton_eq. by eexists.
  - intros [m Hm]. apply lookup_singleton_Some in Hm as [<- _].
    by apply list_elem_of_singleton.
  - intros [|i] k Hk; [|by destruct i].
    injection Hk as <-. apply lookup_singleton_eq.
Qed.

(** Every call that returns keeps the index map allocated with the metric
    map, also an update of an absent name: the reports a client reaches
    from [NewCheckResult] or from the zero value are all [allocated]. *)
Lemma perform_allocated (c : call) (cr cr' : CheckResult) :
  allocated cr -> perform c cr = Ok tt cr' -> allocated cr'.
Proof.
  intros Halloc Hrun. destruct c as [ec msg|name metric|name metric|name];
    cbv beta iota delta [perform] in Hrun.
  - injection Hrun as <-. exact Halloc.
  - destruct (PerformanceData cr) as [pd|] eqn:Hpd.
    + destruct Halloc as [idx Hidx]; [by rewrite Hpd|].
      destruct (pd !! name) as [old|] eqn:Hold.
      * rewrite (AddPerformanceData_present _ _ _ _ _ Hpd Hold) in Hrun.
        injection Hrun as <-. intros _. fields. by rewrite Hidx.
      * rewrite (AddPerformanceData_absent _ _ _ _ _ Hpd Hold Hidx) in Hrun.
        injection Hrun as <-. intros _. fields. by eexists.
    + rewrite (AddPerformanceData_nil _ _ _ Hpd) in Hrun.
      injection Hrun as <-. intros _. fields. by eexists.
  - destruct (PerformanceData cr) as [pd|] eqn:Hpd.
    + rewrite (UpdatePerformanceData_Some _ _ _ _ Hpd) in Hrun.
      injection Hrun as <-. intros _. fields. apply Halloc. by rewrite Hpd.
    + by rewrite (UpdatePerformanceData_nil _ _ _ Hpd) in Hrun.
  - revert Hrun. unfold DeletePerformanceData, bind, load, store.
    destruct (PerformanceData cr) as [pd|] eqn:Hpd; cbn; [|by intros [= <-]].
    destruct Halloc as [idx Hidx]; [by rewrite Hpd|].
    destruct (pd !! name); [|by intros [= <-]; intros _; rewrite Hidx].
    rewrite Hidx. cbn.
    destruct (idx !! name) as [index|]; [|by intros [= <-]; intros _; fields; rewrite Hidx].
    destruct (GoSlice.index _ _ _) as [x cr1|]; [|done].
    destruct (GoSlice.assign _ _ _ _) as [order cr2|] eqn:Hassign; [|done].
    destruct (GoMap.assign _ _ _ _) as [idx' cr3|] eqn:Hidx3; [|done].
    destruct (GoSlice.prefix _ _ _) as [order' cr4|] eqn:Hprefix; [|done].
    intros [= <-]. intros _. fields.
    unfold GoSlice.prefix in Hprefix.
    destruct (_ && _) in Hprefix; [|done]. injection Hprefix as _ <-. fields.
    unfold GoMap.assign in Hidx3.
    destruct (perfIndexMap cr2); [|done]. injection Hidx3 as <- _. by eexists.
Qed.

(** ** The substring search of the tests *)

Lemma append_cons (c : ascii) (s t : string) : String c s ++ t = String c (s ++ t).
Proof. reflexivity. Qed.

Lemma append_length (s t : string) :
  String.length (s ++ t) = (String.length s + String.length t)%nat.
Proof.
  induction s as [|c s IH]; [reflexivity|].
  rewrite append_cons. cbn. by rewrite IH.
Qed.

Lemma substring_prefix (sub post : string) :
  substring 0 (String.length sub) (sub ++ post) = sub.
Proof.
  induction sub as [|c sub IH]; [by destruct post|].
  rewrite append_cons. cbn. by rewrite IH.
Qed.

Lemma substring_middle (pre sub post : string) :
  substring (String.length pre) (String.length sub) (pre ++ sub ++ post) = sub.
Proof.
  induction pre as [|c pre IH]; [exact (substring_prefix sub post)|].
  rewrite append_cons. cbn. exact IH.
Qed.

Lemma substring_prefix_split (s : string) (n : nat) :
  (n <= String.length s)%nat -> exists post, s = substring 0 n s ++ post.
Proof.
  revert s. induction n as [|n IH]; intros s Hn.
  - exists s. by destruct s.
  - destruct s as [|c s]; [cbn in Hn; lia|].
    destruct (IH s) as [post Hpost]; [cbn in Hn; lia|].
    exists post. cbn. rewrite append_cons. by rewrite <- Hpost.
Qed.

Lemma substring_split (s : string) (i n : nat) :
  (i + n <= String.length s)%nat ->
  exists pre post, s = pre ++ substring i n s ++ post /\ String.length pre = i.
Proof.
  revert s. induction i as [|i IH]; intros s Hlen.
  - destruct (substring_prefix_split s n) as [post Hpost]; [lia|].
    by exists "", post.
  - destruct s as [|c s]; [cbn in Hlen; lia|].
    destruct (IH s) as (pre & post & Hs & Hpre); [cbn in Hlen; lia|].
    exists (String c pre), post. split; [|by cbn; rewrite Hpre].
    rewrite append_cons. cbn [substring]. by rewrite <- Hs.
Qed.

(** An occurrence is a way to cut the string around [substr]. *)
Lemma occurs_at_split (s substr : string) (i : nat) :
  occurs_at s substr i <->
  exists pre post, s = pre ++ substr ++ post /\ String.length pre = i.
Proof.
  split.
  - intros [Hlen Hsub].
    destruct (substring_split s i (String.length substr) Hlen) as (pre & post & Hs & Hpre).
    rewrite Hsub in Hs. by exists pre, post.
  - intros (pre & post & -> & <-). split.
    + rewrite !append_length. lia.
    + apply substring_middle.
Qed.

(** The loop from [i] on, with fuel for the positions that are left:
    either it stops at the first occurrence at or after [i], or there is
    none and it gives [-1]. *)
Lemma findSubstringIndex_from_spec (s substr : string) (fuel i : nat) :
  (String.length s + 1 <= i + fuel)%nat ->
  (findSubstringIndex_from s substr (Z.of_nat i) fuel = -1 /\
   forall j, (i <= j)%nat -> ~ occurs_at s substr j) \/
  (exists k, findSubstringIndex_from s substr (Z.of_nat i) fuel = Z.of_nat k /\
             (i <= k)%nat /\ occurs_at s substr k /\
             forall j, (i <= j < k)%nat -> ~ occurs_at s substr j).
Proof.
  revert i. induction fuel as [|fuel IH]; intros i Hfuel.
  - left. split; [reflexivity|]. intros j Hj [Hlen _]. lia.
  - cbn [findSubstringIndex_from]. unfold GoString.len, GoString.slice.
    destruct (Z.leb_spec (Z.of_nat i)
                (Z.of_nat (String.length s) - Z.of_nat (String.length substr)))
      as [Hin|Hout].
    + replace (Z.to_nat (Z.of_nat i + Z.of_nat (String.length substr) - Z.of_nat i))
        with (String.length substr) by lia.
      rewrite Nat2Z.id.
      destruct (String.eqb_spec (substring i (String.length substr) s) substr) as [Heq|Hne].
      * right. exists i. repeat split; [lia|lia|exact Heq|]. intros j Hj. lia.
      * replace (Z.of_nat i + 1) with (Z.of_nat (S i)) by lia.
        destruct (IH (S i)) as [[Hr Hnone]|(k & Hr & Hk & Hocc & Hfirst)]; [lia| |].
        -- left. split; [exact Hr|]. intros j Hj.
           destruct (decide (j = i)) as [->|]; [by intros [_ ?]|].
           apply Hnone. lia.
        -- right. exists k. repeat split; [exact Hr|lia|apply Hocc|apply Hocc|].
           intros j Hj. destruct (decide (j = i)) as [->|]; [by intros [_ ?]|].
           apply Hfirst. lia.
    + left. split; [reflexivity|]. intros j Hj [Hlen _]. lia.
Qed.

(** [findSubstringIndex] gives the offset of the first occurrence. *)
Theorem findSubstringIndex_first (s substr : string) (i : nat) :
  occurs_at s substr i ->
  (forall j, (j < i)%nat -> ~ occurs_at s substr j) ->
  findSubstringIndex s substr = Z.of_nat i.
Proof.
  intros Hocc Hfirst. unfold findSubstringIndex.
  destruct (findSubstringIndex_from_spec s substr (S (String.length s)) 0)
    as [[_ Hnone]|(k & Hr & _ & Hk & Hbefore)]; [lia| |].
  - destruct (Hnone i); [lia|exact Hocc].
  - change (Z.of_nat 0) with 0 in Hr. rewrite Hr. f_equal.
    destruct (Nat.lt_trichotomy k i) as [Hlt|[->|Hgt]]; [|reflexivity|].
    + destruct (Hfirst k Hlt Hk).
    + destruct (Hbefore i); [lia|exact Hocc].
Qed.

Lemma findSubstringIndex_first_witness :
  findSubstringIndex "OK - fine | 'load'=0.00;" "'load'" = 12.
Proof.
  apply (findSubstringIndex_first "OK - fine | 'load'=0.00;" "'load'" 12).
  - split; [cbn; lia|reflexivity].
  - intros j Hj [_ Hsub].
    do 12 (destruct j as [|j]; [discriminate Hsub|]). lia.
Defined.

(** The result of [findSubstringIndex]: [-1] and no occurrence, or an
    offset at which [substr] occurs. *)
Lemma findSubstringIndex_cases (s substr : string) :
  (findSubstringIndex s substr = -1 /\ forall i, ~ occurs_at s substr i) \/
  (exists i, findSubstringIndex s substr = Z.of_nat i /\ occurs_at s substr i).
Proof.
  unfold findSubstringIndex.
  destruct (findSubstringIndex_from_spec s substr (S (String.length s)) 0)
    as [[Hr Hnone]|(k & Hr & _ & Hk & _)]; [lia| |];
    change (Z.of_nat 0) with 0 in Hr; rewrite Hr.
  - left. split; [reflexivity|]. intros i. apply Hnone. lia.
  - right. by exists k.
Qed.

(** [findSubstringIndex] gives [-1] exactly when [substr] occurs nowhere in
    [s]. *)
Theorem findSubstringIndex_not_found (s substr : string) :
  findSubstringIndex s substr = -1 <-> forall i, ~ occurs_at s substr i.
Proof.
  destruct (findSubstringIndex_cases s substr) as [[Hr Hnone]|(k & Hr & Hk)].
  - by split.
  - split; [lia|]. intros Hnone. destruct (Hnone k Hk).
Qed.

(** A non-empty [substr] that [s] can be cut around is found. *)
Lemma containsString_cut (pre substr post : string) :
  substr <> "" -> containsString (pre ++ substr ++ post) substr = true.
Proof.
  intros Hsub. unfold containsString, GoString.len.
  assert (0 < String.length substr)%nat as Hpos
    by (destruct substr; [done|cbn; lia]).
  assert (occurs_at (pre ++ substr ++ post) substr (String.length pre)) as Hocc
    by (apply occurs_at_split; by exists pre, post).
  rewrite !andb_true_iff, !Z.ltb_lt, Z.leb_le. repeat split.
  - destruct Hocc as [Hlen _]. lia.
  - lia.
  - destruct (findSubstringIndex_cases (pre ++ substr ++ post) substr)
      as [[_ Hnone]|(k & -> & _)]; [destruct (Hnone _ Hocc)|lia].
Qed.

(** [containsString] holds exactly of a non-empty [substr] that [s] can be
    cut around. *)
Theorem containsString_spec (s substr : string) :
  containsString s substr = true <->
  substr <> "" /\ exists pre post, s = pre ++ substr ++ post.
Proof.
  split.
  - unfold containsString, GoString.len.
    rewrite !andb_true_iff, !Z.ltb_lt, Z.leb_le.
    intros [[Hs Hsub] Hfound]. split; [by intros ->|].
    destruct (findSubstringIndex_cases s substr) as [[Hr _]|(i & _ & Hocc)]; [lia|].
    apply occurs_at_split in Hocc as (pre & post & Hcut & _). by exists pre, post.
  - intros [Hsub (pre & post & ->)]. by apply containsString_cut.
Qed.

(** ** More on the bookkeeping of the metrics *)

Ltac fields_in H :=
  cbn [ExitCode Message PerfOrder PerformanceData Format perfIndexMap
       set_ExitCode set_Message set_PerfOrder set_PerformanceData set_perfIndexMap] in H.

(** The run of a deletion on a consistent report, at the position of the
    name. *)
Lemma DeletePerformanceData_run (cr : CheckResult) (metricName : string) (i : nat) :
  consistent cr -> PerfOrder cr !! i = Some metricName ->
  exists pd idx lastElement,
    PerformanceData cr = Some pd /\ perfIndexMap cr = Some idx /\
    last (PerfOrder cr) = Some lastElement /\
    DeletePerformanceData metricName cr
    = Ok tt
        (set_PerfOrder (swap_remove i (PerfOrder cr))
           (set_perfIndexMap (Some (<[lastElement:=Z.of_nat i]> (delete metricName idx)))
              (set_PerformanceData (Some (delete metricName pd)) cr))).
Proof.
  intros (pd & idx & Hpd & Hidx & Hnodup & Hkeys & Hpos) Hi.
  pose proof (lookup_lt_Some _ _ _ Hi) as Hlt.
  destruct (last (PerfOrder cr)) as [x|] eqn:Hlast;
    [|rewrite last_lookup in Hlast; apply lookup_ge_None_1 in Hlast; lia].
  exists pd, idx, x. repeat split; try done.
  eapply DeletePerformanceData_indexed; eauto.
  apply Hkeys. by eapply list_elem_of_lookup_2.
Qed.

Lemma consistent_position (cr : CheckResult) (metricName : string) :
  consistent cr -> is_Some (GoMap.get (PerformanceData cr) metricName) ->
  exists i, PerfOrder cr !! i = Some metricName.
Proof.
  intros (pd & idx & Hpd & _ & _ & Hkeys & _) Hin.
  rewrite Hpd in Hin. apply list_elem_of_lookup_1. by apply Hkeys.
Qed.

(** The reports a client reaches from [NewCheckResult] by calls whose
    updates name present metrics are consistent. *)
Lemma reached_consistent (cs : list call) :
  disciplined cs NewCheckResult ->
  exists cr, state_after cs NewCheckResult = Some cr /\ consistent cr.
Proof.
  intros Hcs.
  destruct (perform_all_consistent cs NewCheckResult NewCheckResult_consistent Hcs)
    as (cr & Hrun & Hcr & _).
  exists cr. unfold state_after. by rewrite Hrun.
Qed.

(** Deleting a metric of a consistent report returns, takes the name out
    of the map and out of the order, and keeps every other metric, every
    other name of the order, the exit code, the message and the template. *)
Theorem DeletePerformanceData_removes (cr : CheckResult) (metricName : string) :
  consistent cr ->
  is_Some (GoMap.get (PerformanceData cr) metricName) ->
  exists cr',
    DeletePerformanceData metricName cr = Ok tt cr' /\
    GoMap.get (PerformanceData cr') metricName = None /\
    (forall k, k <> metricName ->
       GoMap.get (PerformanceData cr') k = GoMap.get (PerformanceData cr) k) /\
    (forall k, k ∈ PerfOrder cr' <-> k ∈ PerfOrder cr /\ k <> metricName) /\
    length (PerfOrder cr') = pred (length (PerfOrder cr)) /\
    ExitCode cr' = ExitCode cr /\ Message cr' = Message cr /\ Format cr' = Format cr.
Proof.
  intros Hcr Hin.
  destruct (consistent_position cr metricName Hcr Hin) as [i Hi].
  destruct (DeletePerformanceData_run cr metricName i Hcr Hi)
    as (pd & idx & x & Hpd & Hidx & Hlast & Hrun).
  destruct Hcr as (pd' & idx' & Hpd' & _ & Hnodup & _).
  eexists. split; [exact Hrun|]. fields. rewrite Hpd.
  repeat split; try done.
  - apply lookup_delete_eq.
  - intros k Hk. by apply lookup_delete_ne.
  - by apply (swap_remove_elem_of _ _ _ _ Hnodup Hi).
  - by apply (swap_remove_elem_of _ _ _ _ Hnodup Hi).
  - intros [Hk Hne]. by apply (swap_remove_elem_of _ _ _ _ Hnodup Hi).
  - apply swap_remove_length.
Qed.

(** Where the names are after a deletion: the last name of the order stands
    where the deleted name stood, and every other name stands where it
    stood. *)
Theorem DeletePerformanceData_positions (cr : CheckResult) (metricName lastElement : string)
    (i : nat) :
  consistent cr ->
  PerfOrder cr !! i = Some metricName ->
  last (PerfOrder cr) = Some lastElement ->
  exists cr',
    DeletePerformanceData metricName cr = Ok tt cr' /\
    forall j, (j < pred (length (PerfOrder cr)))%nat ->
      PerfOrder cr' !! j = if decide (j = i) then Some lastElement else PerfOrder cr !! j.
Proof.
  intros Hcr Hi Hlast.
  destruct (DeletePerformanceData_run cr metricName i Hcr Hi)
    as (pd & idx & x & Hpd & Hidx & Hlast' & Hrun).
  eexists. split; [exact Hrun|]. fields. intros j Hj.
  rewrite (swap_remove_lookup _ _ _ _ Hlast (lookup_lt_Some _ _ _ Hi)).
  by rewrite decide_True.
Qed.

(** Deleting the last name of the order leaves the names before it as they
    are. *)
Theorem DeletePerformanceData_last (cr : CheckResult) (metricName : string)
    (before : list string) :
  consistent cr ->
  PerfOrder cr = (before ++ [metricName])%list ->
  exists cr',
    DeletePerformanceData metricName cr = Ok tt cr' /\ PerfOrder cr' = before.
Proof.
  intros Hcr Horder.
  assert (PerfOrder cr !! length before = Some metricName) as Hi.
  { rewrite Horder. apply list_lookup_middle. reflexivity. }
  destruct (DeletePerformanceData_run cr metricName _ Hcr Hi)
    as (pd & idx & x & Hpd & Hidx & Hlast & Hrun).
  eexists. split; [exact Hrun|]. fields.
  unfold swap_remove. rewrite Hlast. rewrite Horder in *.
  rewrite last_snoc in Hlast. injection Hlast as <-.
  rewrite length_app. cbn [length].
  replace (pred (length before + 1)) with (length before) by lia.
  rewrite list_insert_id by (apply list_lookup_middle; reflexivity).
  by rewrite take_app_length.
Qed.

(** A second deletion of the same name changes nothing: the first leaves
    the name out of the map, and the second returns at once. *)
Theorem DeletePerformanceData_twice (cr : CheckResult) (metricName : string) :
  consistent cr ->
  exists cr',
    DeletePerformanceData metricName cr = Ok tt cr' /\
    GoMap.get (PerformanceData cr') metricName = None /\
    DeletePerformanceData metricName cr' = Ok tt cr'.
Proof.
  intros Hcr.
  destruct (GoMap.get (PerformanceData cr) metricName) as [old|] eqn:Hold.
  - destruct (consistent_position cr metricName Hcr) as [i Hi];
      [rewrite Hold; by eexists|].
    destruct (DeletePerformanceData_run cr metricName i Hcr Hi)
      as (pd & idx & x & _ & _ & _ & Hrun).
    eexists. split; [exact Hrun|].
    assert (GoMap.get
              (PerformanceData
                 (set_PerfOrder (swap_remove i (PerfOrder cr))
                    (set_perfIndexMap
                       (Some (<[x:=Z.of_nat i]> (delete metricName idx)))
                       (set_PerformanceData (Some (delete metricName pd)) cr))))
              metricName = None) as Hgone
      by (fields; apply lookup_delete_eq).
    split; [exact Hgone|]. by apply DeletePerformanceData_absent.
  - exists cr. split; [by apply DeletePerformanceData_absent|].
    split; [exact Hold|]. by apply DeletePerformanceData_absent.
Qed.

(** Adding a metric under a new name and deleting it again gives the order
    and the metrics of before. *)
Theorem AddPerformanceData_then_Delete (cr : CheckResult) (metricName : string)
    (metric : PerformanceMetric) :
  consistent cr ->
  GoMap.get (PerformanceData cr) metricName = None ->
  exists cr',
    (AddPerformanceData metricName metric ;; DeletePerformanceData metricName) cr
    = Ok tt cr' /\
    PerfOrder cr' = PerfOrder cr /\
    PerformanceData cr' = PerformanceData cr /\
    consistent cr'.
Proof.
  intros Hcr Hnew.
  destruct (AddPerformanceData_consistent cr metricName metric Hcr) as (cr1 & Hadd & Hcr1).
  destruct (DeletePerformanceData_consistent cr1 metricName Hcr1) as (cr2 & Hdel & Hcr2).
  exists cr2. unfold bind. rewrite Hadd. split; [exact Hdel|].
  destruct Hcr as (pd & idx & Hpd & Hidx & Hnodup & Hkeys & Hpos).
  rewrite Hpd in Hnew. cbn in Hnew.
  rewrite (AddPerformanceData_absent _ _ _ _ _ Hpd Hnew Hidx) in Hadd.
  injection Hadd as <-.
  assert (PerfOrder
            (set_PerformanceData (Some (<[metricName:=metric]> pd))
               (set_perfIndexMap
                  (Some (<[metricName:=GoSlice.len (PerfOrder cr ++ [metricName]) - 1]> idx))
                  (set_PerfOrder (PerfOrder cr ++ [metricName]) cr)))
          !! length (PerfOrder cr) = Some metricName) as Hi.
  { fields. apply list_lookup_middle. reflexivity. }
  destruct (DeletePerformanceData_run _ metricName _ Hcr1 Hi)
    as (pd1 & idx1 & x & Hpd1 & Hidx1 & Hlast & Hrun).
  rewrite Hrun in Hdel. injection Hdel as <-.
  fields_in Hpd1. injection Hpd1 as <-.
  fields_in Hlast. rewrite last_snoc in Hlast. injection Hlast as <-.
  fields. split; [|split; [|exact Hcr2]].
  - unfold swap_remove. rewrite last_snoc, length_app. cbn [length].
    replace (pred (length (PerfOrder cr) + 1)) with (length (PerfOrder cr)) by lia.
    rewrite list_insert_id by (apply list_lookup_middle; reflexivity).
    by rewrite take_app_length.
  - rewrite Hpd. f_equal. by apply delete_insert_id.
Qed.

(** Deleting a metric and adding its name again puts the name at the end
    of the order, after the names that were left. *)
Theorem DeletePerformanceData_then_Add (cr : CheckResult) (metricName : string)
    (metric : PerformanceMetric) :
  consistent cr ->
  is_Some (GoMap.get (PerformanceData cr) metricName) ->
  exists cr1 cr2,
    DeletePerformanceData metricName cr = Ok tt cr1 /\
    AddPerformanceData metricName metric cr1 = Ok tt cr2 /\
    PerfOrder cr2 = (PerfOrder cr1 ++ [metricName])%list /\
    GoMap.get (PerformanceData cr2) metricName = Some metric /\
    consistent cr2.
Proof.
  intros Hcr Hin.
  destruct (consistent_position cr metricName Hcr Hin) as [i Hi].
  destruct (DeletePerformanceData_run cr metricName i Hcr Hi)
    as (pd & idx & x & Hpd & Hidx & Hlast & Hrun).
  destruct (DeletePerformanceData_consistent cr metricName Hcr) as (cr1 & Hdel & Hcr1).
  destruct (AddPerformanceData_consistent cr1 metricName metric Hcr1) as (cr2 & Hadd & Hcr2).
  exists cr1, cr2. split; [exact Hdel|]. split; [exact Hadd|].
  rewrite Hrun in Hdel. injection Hdel as <-.
  erewrite AddPerformanceData_absent in Hadd;
    [|fields; reflexivity|apply lookup_delete_eq|fields; reflexivity].
  injection Hadd as <-. fields.
  split; [reflexivity|]. split; [apply lookup_insert_eq|exact Hcr2].
Qed.

(** Adding a metric to a report whose index map is allocated with its
    metric map returns and stores the metric under the name; every other
    metric, the exit code, the message and the template stay. *)
Theorem AddPerformanceData_frame (cr : CheckResult) (metricName : string)
    (metric : PerformanceMetric) :
  allocated cr ->
  exists cr',
    AddPerformanceData metricName metric cr = Ok tt cr' /\
    GoMap.get (PerformanceData cr') metricName = Some metric /\
    (forall k, k <> metricName ->
       GoMap.get (PerformanceData cr') k = GoMap.get (PerformanceData cr) k) /\
    ExitCode cr' = ExitCode cr /\ Message cr' = Message cr /\ Format cr' = Format cr.
Proof.
  intros Halloc. destruct (PerformanceData cr) as [pd|] eqn:Hpd.
  - destruct Halloc as [idx Hidx]; [by rewrite Hpd|].
    destruct (pd !! metricName) as [old|] eqn:Hold.
    + eexists. split; [by eapply AddPerformanceData_present|]. fields.
      repeat split; [apply lookup_insert_eq|].
      intros k Hk. by apply lookup_insert_ne.
    + eexists. split; [by eapply AddPerformanceData_absent|]. fields.
      repeat split; [apply lookup_insert_eq|].
      intros k Hk. by apply lookup_insert_ne.
  - eexists. split; [by apply AddPerformanceData_nil|]. fields.
    repeat split; [apply lookup_singleton_eq|].
    intros k Hk. by apply lookup_singleton_ne.
Qed.


(** On a report whose metric map is nil, whatever its order holds,
    [AddPerformanceData] allocates the maps and starts the order afresh:
    the report is consistent afterwards and its order is the one name. *)
Theorem AddPerformanceData_lazy_init (cr : CheckResult) (metricName : string)
    (metric : PerformanceMetric) :
  PerformanceData cr = None ->
  exists cr',
    AddPerformanceData metricName metric cr = Ok tt cr' /\
    PerfOrder cr' = [metricName] /\
    PerformanceData cr' = Some {[metricName := metric]} /\
    consistent cr'.
Proof.
  intros Hpd. eexists. split; [by apply AddPerformanceData_nil|]. fields.
  split; [reflexivity|]. split; [reflexivity|].
  exists {[metricName:=metric]}, {[metricName:=0]}. fields.
  repeat split; try done.
  - apply NoDup_singleton.
  - intros ->%list_elem_of_singleton. rewrite lookup_singleton_eq. by eexists.
  - intros [m Hm]. apply lookup_singleton_Some in Hm as [<- _].
    by apply list_elem_of_singleton.
  - intros [|i] k Hk; [|by destruct i].
    injection Hk as <-. apply lookup_singleton_eq.
Qed.

Lemma AddPerformanceData_lazy_init_witness :
  exists cr',
    AddPerformanceData "load" zero_metric (set_PerfOrder ["stale"] zero_CheckResult)
    = Ok tt cr' /\
    PerfOrder cr' = ["load"] /\
    PerformanceData cr' = Some {["load" := zero_metric]} /\
    consistent cr'.
Proof.
  apply (AddPerformanceData_lazy_init (set_PerfOrder ["stale"] zero_CheckResult)).
  reflexivity.
Defined.

(** On a report whose metric map is nil, as the zero value's is,
    [UpdatePerformanceData] panics, where [AddPerformanceData] allocates. *)
Theorem UpdatePerformanceData_nil_panics (cr : CheckResult) (metricName : string)
    (metric : PerformanceMetric) :
  PerformanceData cr = None ->
  UpdatePerformanceData metricName metric cr = Panic "assignment to entry in nil map" /\
  exists cr', AddPerformanceData metricName metric cr = Ok tt cr'.
Proof.
  intros Hpd. split; [by apply UpdatePerformanceData_nil|].
  eexists. by apply AddPerformanceData_nil.
Qed.

Lemma UpdatePerformanceData_nil_panics_witness :
  UpdatePerformanceData "load" zero_metric zero_CheckResult
  = Panic "assignment to entry in nil map" /\
  exists cr', AddPerformanceData "load" zero_metric zero_CheckResult = Ok tt cr'.
Proof.
  apply (UpdatePerformanceData_nil_panics zero_CheckResult "load" zero_metric).
  reflexivity.
Defined.

(** The index that the deletion of the last name leaves behind: adding a
    name to the fresh report, deleting it, storing it again with
    [UpdatePerformanceData] and deleting it once more panics. *)
Theorem stale_index_panics (metricName : string) (first second : PerformanceMetric) :
  perform_all [CallAdd metricName first; CallDelete metricName;
               CallUpdate metricName second; CallDelete metricName] NewCheckResult
  = Panic "index out of range".
Proof.
  cbn [perform_all perform]. unfold bind at 1.
  rewrite (AddPerformanceData_absent NewCheckResult metricName first ∅ ∅
             eq_refl (lookup_empty _) eq_refl).
  unfold bind at 1.
  erewrite DeletePerformanceData_indexed with (i := 0%nat) (lastElement := metricName);
    [|fields; reflexivity|fields; reflexivity
     |rewrite lookup_insert_eq; by eexists
     |apply lookup_insert_eq|cbn; lia|reflexivity].
  unfold bind at 1.
  erewrite UpdatePerformanceData_Some by (fields; reflexivity).
  unfold bind at 1.
  unfold DeletePerformanceData, bind, load, store. fields.
  unfold GoMap.get. rewrite lookup_insert_eq. fields.
  rewrite lookup_insert_eq. reflexivity.
Qed.

(** In a consistent report the map has as many metrics as the order has
    names. *)
Lemma consistent_sizes (cr : CheckResult) :
  consistent cr -> GoMap.len (PerformanceData cr) = GoSlice.len (PerfOrder cr).
Proof.
  intros (pd & idx & Hpd & _ & Hnodup & Hkeys & _).
  rewrite Hpd. unfold GoMap.len, GoSlice.len. f_equal.
  rewrite <- size_dom, <- (size_list_to_set (C := gset string)) by exact Hnodup.
  f_equal. apply set_eq. intros k.
  rewrite elem_of_dom, elem_of_list_to_set. symmetry. apply Hkeys.
Qed.

(** ** Sequences of calls *)

Lemma not_update_disciplined (cs : list call) (cr : CheckResult) :
  Forall not_update cs -> disciplined cs cr.
Proof.
  intros Hcs. revert cr. induction Hcs as [|c cs Hc _ IH]; intros cr; [exact I|].
  split; [by destruct c|]. intros cr' _. apply IH.
Qed.

(** From a consistent report, a sequence of calls whose updates name
    metrics that are in the map when they are made runs to its end without
    panic, and the order and the map name the same metrics afterwards, in
    equal number. *)
Theorem disciplined_calls_keep_in_sync (cs : list call) (cr : CheckResult) :
  consistent cr -> disciplined cs cr ->
  exists cr',
    perform_all cs cr = Ok tt cr' /\ in_sync cr' /\
    GoMap.len (PerformanceData cr') = GoSlice.len (PerfOrder cr').
Proof.
  intros Hcr Hcs.
  destruct (perform_all_consistent cs cr Hcr Hcs) as (cr' & Hrun & Hcr' & Hsync).
  exists cr'. split; [exact Hrun|]. split; [exact Hsync|].
  by apply consistent_sizes.
Qed.

Lemma disciplined_calls_keep_in_sync_witness :
  exists cr',
    perform_all [CallAdd "a" zero_metric; CallAdd "b" zero_metric;
                 CallUpdate "a" response_time_metric; CallDelete "a";
                 CallSetResult ExitCode.Warning "slow"] NewCheckResult
    = Ok tt cr' /\ in_sync cr' /\
    GoMap.len (PerformanceData cr') = GoSlice.len (PerfOrder cr').
Proof.
  apply (disciplined_calls_keep_in_sync _ NewCheckResult NewCheckResult_consistent).
  split; [exact I|]. intros cr1 Hrun1. injection Hrun1 as <-.
  split; [exact I|]. intros cr2 Hrun2. injection Hrun2 as <-.
  split; [by eexists|]. intros cr3 _.
  apply not_update_disciplined. repeat constructor.
Defined.

Lemma perform_all_allocated (cs : list call) (cr cr' : CheckResult) :
  allocated cr -> perform_all cs cr = Ok tt cr' -> allocated cr'.
Proof.
  revert cr. induction cs as [|c cs IH]; intros cr Halloc Hrun.
  - injection Hrun as <-. exact Halloc.
  - cbn [perform_all] in Hrun. unfold bind in Hrun.
    destruct (perform c cr) as [[] cr1|] eqn:Hrun1; [|discriminate Hrun].
    eapply IH; [|exact Hrun]. by eapply perform_allocated.
Qed.

(** After any sequence of calls that returns, from a report whose index map
    is allocated with its metric map (the fresh report, the zero value),
    [AddPerformanceData] returns: it never meets a nil index map. *)
Theorem AddPerformanceData_returns_after (cs : list call) (cr cr' : CheckResult)
    (metricName : string) (metric : PerformanceMetric) :
  allocated cr ->
  perform_all cs cr = Ok tt cr' ->
  exists cr'', AddPerformanceData metricName metric cr' = Ok tt cr''.
Proof.
  intros Halloc Hrun.
  pose proof (perform_all_allocated cs cr cr' Halloc Hrun) as Halloc'.
  destruct (PerformanceData cr') as [pd|] eqn:Hpd.
  - destruct Halloc' as [idx Hidx]; [by rewrite Hpd|].
    destruct (pd !! metricName) as [old|] eqn:Hold; eexists.
    + by eapply AddPerformanceData_present.
    + by eapply AddPerformanceData_absent.
  - eexists. by apply AddPerformanceData_nil.
Qed.

Lemma AddPerformanceData_returns_after_witness :
  exists cr' cr'',
    perform_all [CallUpdate "ghost" zero_metric; CallDelete "ghost"] NewCheckResult
    = Ok tt cr' /\
    AddPerformanceData "ghost" zero_metric cr' = Ok tt cr''.
Proof.
  eexists. 
  assert (perform_all [CallUpdate "ghost" zero_metric; CallDelete "ghost"] NewCheckResult
          = Ok tt (set_PerformanceData (Some (delete "ghost" (<["ghost":=zero_metric]> ∅)))
                     (set_PerformanceData (Some (<["ghost":=zero_metric]> ∅)) NewCheckResult)))
    as Hrun by reflexivity.
  destruct (AddPerformanceData_returns_after _ NewCheckResult _ "ghost" zero_metric
              (consistent_allocated _ NewCheckResult_consistent) Hrun) as [cr'' Hadd].
  exists cr''. split; [exact Hrun|exact Hadd].
Defined.

(** ** The report with the metrics a, b and c *)

Lemma abc_report :
  exists cr,
    state_after [CallAdd "a" zero_metric; CallAdd "b" zero_metric;
                 CallAdd "c" zero_metric] NewCheckResult = Some cr /\
    consistent cr /\
    PerfOrder cr = ["a"; "b"; "c"] /\
    is_Some (GoMap.get (PerformanceData cr) "a") /\
    is_Some (GoMap.get (PerformanceData cr) "b") /\
    GoMap.get (PerformanceData cr) "d" = None.
Proof.
  destruct (reached_consistent [CallAdd "a" zero_metric; CallAdd "b" zero_metric;
                                CallAdd "c" zero_metric]) as (cr & Hcr & Hcons).
  { apply not_update_disciplined. repeat constructor. }
  exists cr. split; [exact Hcr|]. split; [exact Hcons|].
  vm_compute in Hcr. injection Hcr as <-.
  repeat split; by eexists.
Qed.

Lemma DeletePerformanceData_removes_witness :
  exists cr cr',
    state_after [CallAdd "a" zero_metric; CallAdd "b" zero_metric;
                 CallAdd "c" zero_metric] NewCheckResult = Some cr /\
    DeletePerformanceData "b" cr = Ok tt cr' /\
    GoMap.get (PerformanceData cr') "b" = None /\
    length (PerfOrder cr') = pred (length (PerfOrder cr)).
Proof.
  destruct abc_report as (cr & Hcr & Hcons & _ & _ & Hb & _).
  destruct (DeletePerformanceData_removes cr "b" Hcons Hb)
    as (cr' & Hrun & Hgone & _ & _ & Hlen & _).
  by exists cr, cr'.
Defined.

Lemma DeletePerformanceData_positions_witness :
  exists cr cr',
    state_after [CallAdd "a" zero_metric; CallAdd "b" zero_metric;
                 CallAdd "c" zero_metric] NewCheckResult = Some cr /\
    DeletePerformanceData "a" cr = Ok tt cr' /\
    PerfOrder cr' !! 0%nat = Some "c" /\
    PerfOrder cr' !! 1%nat = PerfOrder cr !! 1%nat.
Proof.
  destruct abc_report as (cr & Hcr & Hcons & Horder & _).
  destruct (DeletePerformanceData_positions cr "a" "c" 0 Hcons) as (cr' & Hrun & Hpos).
  { by rewrite Horder. }
  { by rewrite Horder. }
  exists cr, cr'. split; [exact Hcr|]. split; [exact Hrun|].
  split; apply Hpos; rewrite Horder; cbn; lia.
Defined.

Lemma DeletePerformanceData_last_witness :
  exists cr cr',
    state_after [CallAdd "a" zero_metric; CallAdd "b" zero_metric;
                 CallAdd "c" zero_metric] NewCheckResult = Some cr /\
    DeletePerformanceData "c" cr = Ok tt cr' /\
    PerfOrder cr' = ["a"; "b"].
Proof.
  destruct abc_report as (cr & Hcr & Hcons & Horder & _).
  destruct (DeletePerformanceData_last cr "c" ["a"; "b"] Hcons Horder) as (cr' & Hrun & Hleft).
  by exists cr, cr'.
Defined.

Lemma DeletePerformanceData_twice_witness :
  exists cr cr',
    state_after [CallAdd "a" zero_metric; CallAdd "b" zero_metric;
                 CallAdd "c" zero_metric] NewCheckResult = Some cr /\
    is_Some (GoMap.get (PerformanceData cr) "b") /\
    DeletePerformanceData "b" cr = Ok tt cr' /\
    GoMap.get (PerformanceData cr') "b" = None /\
    DeletePerformanceData "b" cr' = Ok tt cr'.
Proof.
  destruct abc_report as (cr & Hcr & Hcons & _ & _ & Hb & _).
  destruct (DeletePerformanceData_twice cr "b" Hcons) as (cr' & Hrun & Hgone & Hagain).
  by exists cr, cr'.
Defined.


Lemma AddPerformanceData_frame_witness :
  exists cr cr',
    state_after [CallAdd "a" zero_metric; CallAdd "b" zero_metric;
                 CallAdd "c" zero_metric] NewCheckResult = Some cr /\
    is_Some (GoMap.get (PerformanceData cr) "a") /\
    AddPerformanceData "b" response_time_metric cr = Ok tt cr' /\
    GoMap.get (PerformanceData cr') "b" = Some response_time_metric /\
    GoMap.get (PerformanceData cr') "a" = GoMap.get (PerformanceData cr) "a" /\
    ExitCode cr' = ExitCode cr /\ Message cr' = Message cr /\ Format cr' = Format cr.
Proof.
  destruct abc_report as (cr & Hcr & Hcons & _ & Ha & _).
  destruct (AddPerformanceData_frame cr "b" response_time_metric
              (consistent_allocated cr Hcons))
    as (cr' & Hrun & Hget & Hothers & Hec & Hmsg & Hfmt).
  exists cr, cr'. repeat split; try done. by apply Hothers.
Defined.

Lemma AddPerformanceData_then_Delete_witness :
  exists cr cr',
    state_after [CallAdd "a" zero_metric; CallAdd "b" zero_metric;
                 CallAdd "c" zero_metric] NewCheckResult = Some cr /\
    (AddPerformanceData "d" response_time_metric ;; DeletePerformanceData "d") cr
    = Ok tt cr' /\
    PerfOrder cr' = PerfOrder cr /\
    PerformanceData cr' = PerformanceData cr /\
    consistent cr'.
Proof.
  destruct abc_report as (cr & Hcr & Hcons & _ & _ & _ & Hd).
  destruct (AddPerformanceData_then_Delete cr "d" response_time_metric Hcons Hd)
    as (cr' & Hrun).
  by exists cr, cr'.
Defined.

Lemma DeletePerformanceData_then_Add_witness :
  exists cr cr1 cr2,
    state_after [CallAdd "a" zero_metric; CallAdd "b" zero_metric;
                 CallAdd "c" zero_metric] NewCheckResult = Some cr /\
    DeletePerformanceData "a" cr = Ok tt cr1 /\
    AddPerformanceData "a" response_time_metric cr1 = Ok tt cr2 /\
    PerfOrder cr2 = (PerfOrder cr1 ++ ["a"])%list.
Proof.
  destruct abc_report as (cr & Hcr & Hcons & _ & Ha & _).
  destruct (DeletePerformanceData_then_Add cr "a" response_time_metric Hcons Ha)
    as (cr1 & cr2 & Hdel & Hadd & Horder & _).
  by exists cr, cr1, cr2.
Defined.

(** ** More on the exit codes *)

Lemma verb_d_inj (n m : Z) : Fmt.verb_d n = Fmt.verb_d m -> n = m.
Proof.
  unfold Fmt.verb_d. intros Heq. apply DecimalZ.to_int_inj.
  assert (forall z, NilZero.int_of_string (NilZero.string_of_int (Z.to_int z))
                    = Some (Z.to_int z)) as Hparse.
  { intros z. apply NilZero.isi; destruct z; cbn; try discriminate;
      intros [= Hnil]; by apply DecimalPos.Unsigned.to_uint_nonnil in Hnil. }
  pose proof (Hparse n) as Hn. rewrite Heq, Hparse in Hn. by injection Hn.
Qed.

Lemma append_inj_r (s t u : string) : s ++ u = t ++ u -> s = t.
Proof.
  intros Heq.
  assert (String.length s = String.length t) as Hlen.
  { apply (f_equal String.length) in Heq. rewrite !append_length in Heq. lia. }
  revert t Heq Hlen. induction s as [|c s IH]; intros [|d t] Heq Hlen;
    try discriminate Hlen; [reflexivity|].
  rewrite !append_cons in Heq. injection Heq as -> Heq.
  f_equal. apply IH; [exact Heq|]. cbn in Hlen. lia.
Qed.

Lemma ExitCode_String_cases (n : ExitCode.t) :
  n = 0 \/ n = 1 \/ n = 2 \/ n = 3 \/
  ExitCode.String n = "ExitCode(" ++ Fmt.verb_d n ++ ")".
Proof.
  destruct n as [|[[p|p|]|[p|p|]|]|p]; auto; right; right; right; right; reflexivity.
Qed.

Lemma ExitCode_Int_id (n : ExitCode.t) : ExitCode.Int n = n.
Proof. by destruct n as [|[[p|p|]|[p|p|]|]|p]. Qed.

(** Exit codes with the same name are the same code. *)
Theorem ExitCode_String_inj (n m : ExitCode.t) :
  ExitCode.String n = ExitCode.String m -> n = m.
Proof.
  destruct (ExitCode_String_cases n) as [->|[->|[->|[->|Hn]]]];
  destruct (ExitCode_String_cases m) as [->|[->|[->|[->|Hm]]]];
    try reflexivity; try discriminate;
    rewrite ?Hn, ?Hm; try discriminate.
  intros Heq. apply String.app_inj in Heq.
  apply append_inj_r in Heq. by apply verb_d_inj.
Qed.

Lemma ExitCode_String_inj_witness : ExitCode.Critical = 2.
Proof. apply (ExitCode_String_inj ExitCode.Critical 2). reflexivity. Defined.

(** ** More on the output line *)

Lemma append_assoc (s t u : string) : (s ++ t) ++ u = s ++ t ++ u.
Proof.
  induction s as [|c s IH]; [reflexivity|].
  rewrite !append_cons. by rewrite IH.
Qed.

Lemma performanceDataStr_from (pd : option (gmap string PerformanceMetric))
    (order : list string) (acc : string) :
  fold_left
    (fun acc key => acc ++ metricStr key (default zero_metric (GoMap.get pd key)))
    order acc
  = acc ++ performanceDataStr pd order.
Proof.
  unfold performanceDataStr. revert acc.
  induction order as [|k order IH]; intros acc; cbn [fold_left].
  - by rewrite append_empty_r.
  - rewrite IH, (IH ("" ++ _)), append_assoc. reflexivity.
Qed.

Lemma performanceDataStr_cons (pd : option (gmap string PerformanceMetric))
    (k : string) (order : list string) :
  performanceDataStr pd (k :: order)
  = metricStr k (default zero_metric (GoMap.get pd k)) ++ performanceDataStr pd order.
Proof. unfold performanceDataStr at 1. cbn [fold_left]. apply performanceDataStr_from. Qed.

Lemma performanceDataStr_app (pd : option (gmap string PerformanceMetric))
    (before after : list string) :
  performanceDataStr pd (before ++ after)
  = performanceDataStr pd before ++ performanceDataStr pd after.
Proof.
  induction before as [|k before IH]; [reflexivity|].
  cbn [app]. rewrite !performanceDataStr_cons, IH, append_assoc. reflexivity.
Qed.

Lemma performanceDataStr_concat (pd : option (gmap string PerformanceMetric))
    (order : list string) :
  performanceDataStr pd order
  = String.concat ""
      (map (fun k => metricStr k (default zero_metric (GoMap.get pd k))) order).
Proof.
  induction order as [|k order IH]; [reflexivity|].
  rewrite performanceDataStr_cons, IH. cbn [map String.concat].
  destruct order; [by rewrite append_empty_r|reflexivity].
Qed.

Lemma doPrintf_literal (format : string) (a : list string) :
  (forall i, get i format <> Some "%"%char) ->
  Fmt.doPrintf format a = Some (format ++ Fmt.extra a).
Proof.
  induction format as [|c format IH]; intros Hlit; [reflexivity|].
  assert (c <> "%"%char) as Hc by (intros ->; by apply (Hlit 0%nat)).
  assert (Fmt.doPrintf (String c format) a = String c <$> Fmt.doPrintf format a) as ->.
  { cbn [Fmt.doPrintf]. destruct c as [[] [] [] [] [] [] [] []]; try reflexivity.
    by destruct Hc. }
  rewrite IH; [reflexivity|]. intros i. apply (Hlit (S i)).
Qed.

Section MoreRenderingFacts.

Variable Sprintf_other : string -> string -> string -> string.

Lemma FormatResult_metrics (cr : CheckResult) :
  0 < GoMap.len (PerformanceData cr) ->
  FormatResult Sprintf_other cr
  = Ok (Sprintf2 Sprintf_other (Format cr) (ExitCode.String (ExitCode cr)) (Message cr)
        ++ " | " ++ performanceDataStr (PerformanceData cr) (PerfOrder cr)) cr.
Proof.
  intros Hlen. unfold FormatResult, bind, load, ret.
  by destruct (Z.ltb_spec 0 (GoMap.len (PerformanceData cr))); [|lia].
Qed.

(** With the default template and a metric in the map, the output is the
    status name, [" - "], the message, [" | "] and then one token for each
    name of the order, in the order's sequence. *)
Theorem FormatResult_lists_metrics (cr : CheckResult) :
  Format cr = "%s - %s" ->
  0 < GoMap.len (PerformanceData cr) ->
  FormatResult Sprintf_other cr
  = Ok (ExitCode.String (ExitCode cr) ++ " - " ++ Message cr ++ " | "
        ++ String.concat ""
             (map (fun k => metricStr k (default zero_metric
                                           (GoMap.get (PerformanceData cr) k)))
                  (PerfOrder cr))) cr.
Proof.
  intros Hfmt Hlen. rewrite (FormatResult_metrics cr Hlen).
  unfold Sprintf2. rewrite Hfmt, doPrintf_default. cbn [from_option]. unfold id.
  by rewrite performanceDataStr_concat, !append_assoc.
Qed.

(** With a metric in the map, the token of every name of the order is a
    part of the output, whatever the template: [containsString] finds it. *)
Theorem FormatResult_contains_metric (cr : CheckResult) (k : string) :
  0 < GoMap.len (PerformanceData cr) ->
  k ∈ PerfOrder cr ->
  exists output,
    FormatResult Sprintf_other cr = Ok output cr /\
    containsString output
      (metricStr k (default zero_metric (GoMap.get (PerformanceData cr) k))) = true.
Proof.
  intros Hlen Hk. eexists. split; [by apply FormatResult_metrics|].
  apply list_elem_of_split in Hk as (before & after & ->).
  rewrite performanceDataStr_app, performanceDataStr_cons.
  rewrite <- !append_assoc, (append_assoc _ (metricStr _ _)).
  apply containsString_cut. discriminate.
Qed.

(** A name of the order that the map does not have is printed with the
    zero metric, at its place among the tokens of the other names, whatever
    the template. *)
Theorem FormatResult_missing_key (cr : CheckResult) (k : string)
    (before after : list string) :
  0 < GoMap.len (PerformanceData cr) ->
  PerfOrder cr = (before ++ k :: after)%list ->
  GoMap.get (PerformanceData cr) k = None ->
  FormatResult Sprintf_other cr
  = Ok (Sprintf2 Sprintf_other (Format cr) (ExitCode.String (ExitCode cr)) (Message cr)
        ++ " | "
        ++ performanceDataStr (PerformanceData cr) before
        ++ ("'" ++ k ++ "'=0.00;0.00;0.00;0.00;0.00 ")
        ++ performanceDataStr (PerformanceData cr) after) cr.
Proof.
  intros Hlen Horder Hk. rewrite (FormatResult_metrics cr Hlen), Horder.
  rewrite performanceDataStr_app, performanceDataStr_cons, Hk.
  cbn [from_option]. reflexivity.
Qed.

(** The template of the tests with a literal percent sign: the status name
    in brackets, the message, and [%s] for [%%s]. *)
Theorem FormatResult_custom_template (cr : CheckResult) :
  Format cr = "[%s] %s (details: %%s)" ->
  GoMap.len (PerformanceData cr) = 0 ->
  FormatResult Sprintf_other cr
  = Ok ("[" ++ ExitCode.String (ExitCode cr) ++ "] " ++ Message cr ++ " (details: %s)") cr.
Proof.
  intros Hfmt Hlen. unfold FormatResult, bind, load, ret. rewrite Hlen.
  change (0 <? 0) with false. cbv beta iota.
  unfold Sprintf2. rewrite Hfmt. reflexivity.
Qed.

(** A template with no percent sign takes no operand: the output is the
    template followed by the note of [fmt] on the two operands left over. *)
Theorem FormatResult_literal_template (cr : CheckResult) :
  (forall i, get i (Format cr) <> Some "%"%char) ->
  GoMap.len (PerformanceData cr) = 0 ->
  FormatResult Sprintf_other cr
  = Ok (Format cr ++ "%!(EXTRA string=" ++ ExitCode.String (ExitCode cr)
        ++ ", string=" ++ Message cr ++ ")") cr.
Proof.
  intros Hlit Hlen. unfold FormatResult, bind, load, ret. rewrite Hlen.
  change (0 <? 0) with false. cbv beta iota.
  unfold Sprintf2. rewrite (doPrintf_literal _ _ Hlit). cbn [from_option]. unfold id.
  unfold Fmt.extra, Fmt.extra_operands. rewrite !append_assoc. reflexivity.
Qed.

(** The basic use: on the fresh report, [SetResult] and then [SendResult]
    print the status name, [" - "], the message and a newline, and exit with
    the code that was set. *)
Theorem SetResult_then_SendResult (ec : ExitCode.t) (msg out : string) :
  exists cr,
    SetResult ec msg NewCheckResult = Ok tt cr /\
    SendResult Sprintf_other cr out
    = {| stdout := out ++ ExitCode.String ec ++ " - " ++ msg ++ newline;
         status := Exited ec |}.
Proof.
  exists (set_Message msg (set_ExitCode ec NewCheckResult)). split; [reflexivity|].
  assert (FormatResult Sprintf_other (set_Message msg (set_ExitCode ec NewCheckResult))
          = Ok (ExitCode.String ec ++ " - " ++ msg)
              (set_Message msg (set_ExitCode ec NewCheckResult))) as Hrun.
  { unfold FormatResult, bind, load, ret. fields.
    change (0 <? GoMap.len (Some ∅)) with false. cbv beta iota.
    unfold Sprintf2. by rewrite doPrintf_default. }
  unfold SendResult. rewrite Hrun. fields.
  unfold Println. by rewrite ExitCode_Int_id, !append_assoc.
Qed.

End MoreRenderingFacts.

Lemma FormatResult_lists_metrics_witness :
  FormatResult (fun _ _ _ => "")
    (set_PerformanceData (Some {["a" := zero_metric]}) (set_PerfOrder ["a"] NewCheckResult))
  = Ok "OK -  | 'a'=0.00;0.00;0.00;0.00;0.00 "
      (set_PerformanceData (Some {["a" := zero_metric]}) (set_PerfOrder ["a"] NewCheckResult)).
Proof.
  rewrite (FormatResult_lists_metrics (fun _ _ _ => "")
             (set_PerformanceData (Some {["a" := zero_metric]})
                (set_PerfOrder ["a"] NewCheckResult))) by reflexivity.
  reflexivity.
Defined.

Lemma FormatResult_contains_metric_witness :
  exists output,
    FormatResult (fun _ _ _ => "")
      (set_PerformanceData (Some {["a" := zero_metric]}) (set_PerfOrder ["a"] NewCheckResult))
    = Ok output
        (set_PerformanceData (Some {["a" := zero_metric]})
           (set_PerfOrder ["a"] NewCheckResult)) /\
    containsString output "'a'=0.00;0.00;0.00;0.00;0.00 " = true.
Proof.
  destruct (FormatResult_contains_metric (fun _ _ _ => "")
              (set_PerformanceData (Some {["a" := zero_metric]})
                 (set_PerfOrder ["a"] NewCheckResult)) "a")
    as (output & Hrun & Hcontains); [reflexivity|constructor|].
  exists output. split; [exact Hrun|].
  vm_compute metricStr in Hcontains. exact Hcontains.
Defined.

Lemma FormatResult_missing_key_witness :
  FormatResult (fun _ _ _ => "")
    (set_PerformanceData
       (Some (<["a" := response_time_metric]> {["c" := zero_metric]}))
       (set_PerfOrder ["a"; "ghost"; "c"] NewCheckResult))
  = Ok ("OK -  | 'a'=1.23ms;1.00;2.00;0.00;10.00 "
        ++ "'ghost'=0.00;0.00;0.00;0.00;0.00 "
        ++ "'c'=0.00;0.00;0.00;0.00;0.00 ")
      (set_PerformanceData
         (Some (<["a" := response_time_metric]> {["c" := zero_metric]}))
         (set_PerfOrder ["a"; "ghost"; "c"] NewCheckResult)).
Proof.
  rewrite (FormatResult_missing_key (fun _ _ _ => "")
             (set_PerformanceData
                (Some (<["a" := response_time_metric]> {["c" := zero_metric]}))
                (set_PerfOrder ["a"; "ghost"; "c"] NewCheckResult))
             "ghost" ["a"] ["c"]) by reflexivity.
  reflexivity.
Defined.

Lemma FormatResult_custom_template_witness :
  FormatResult (fun _ _ _ => "")
    {| ExitCode := ExitCode.Unknown; Message := "Plugin unable to determine status";
       PerfOrder := []; PerformanceData := Some ∅;
       Format := "[%s] %s (details: %%s)"; perfIndexMap := Some ∅ |}
  = Ok "[Unknown] Plugin unable to determine status (details: %s)"
      {| ExitCode := ExitCode.Unknown; Message := "Plugin unable to determine status";
         PerfOrder := []; PerformanceData := Some ∅;
         Format := "[%s] %s (details: %%s)"; perfIndexMap := Some ∅ |}.
Proof.
  apply (FormatResult_custom_template (fun _ _ _ => "")
           {| ExitCode := ExitCode.Unknown; Message := "Plugin unable to determine status";
              PerfOrder := []; PerformanceData := Some ∅;
              Format := "[%s] %s (details: %%s)"; perfIndexMap := Some ∅ |});
    reflexivity.
Defined.

Lemma FormatResult_literal_template_witness :
  FormatResult (fun _ _ _ => "")
    {| ExitCode := ExitCode.Warning; Message := "slow";
       PerfOrder := []; PerformanceData := Some ∅;
       Format := "static"; perfIndexMap := Some ∅ |}
  = Ok "static%!(EXTRA string=Warning, string=slow)"
      {| ExitCode := ExitCode.Warning; Message := "slow";
         PerfOrder := []; PerformanceData := Some ∅;
         Format := "static"; perfIndexMap := Some ∅ |}.
Proof.
  apply (FormatResult_literal_template (fun _ _ _ => "")
           {| ExitCode := ExitCode.Warning; Message := "slow";
              PerfOrder := []; PerformanceData := Some ∅;
              Format := "static"; perfIndexMap := Some ∅ |}); [|reflexivity].
  intros i. do 6 (destruct i as [|i]; [discriminate|]). discriminate.
Defined.

Lemma findSubstringIndex_not_found_witness : findSubstringIndex "abc" "x" = -1.
Proof.
  apply (findSubstringIndex_not_found "abc" "x").
  intros i [Hlen Hsub]. cbn in Hlen.
  do 3 (destruct i as [|i]; [discriminate Hsub|]). lia.
Defined.

Lemma containsString_spec_witness :
  containsString "Warning - High latency detected" "High latency" = true.
Proof.
  apply (containsString_spec "Warning - High latency detected" "High latency").
  split; [discriminate|]. by exists "Warning - ", " detected".
Defined.
